(** * Conflict Lens: the two-stage claim/conflict pipeline of [server.mjs]

    A shallow embedding of [src/server.mjs]: the zod data contracts
    ([ClaimSchema], [ClaimSetSchema], [ConflictSchema],
    [ConflictReportSchema]), the generative client ([openaiJSON]), the
    orchestrator ([discoverConflicts]), the telemetry sink ([trackEvent])
    and the [discover_conflicting_claims] tool handler.

    Asynchronous code is sequential here: every [await] is a bind of the
    [Async] monad, which threads the observable world (the log of network
    requests and the number of clock reads) and propagates thrown
    exceptions.  What the JavaScript runtime and the network decide
    ([JSON.parse], [JSON.stringify], number printing, the replies to
    [fetch], [Date.now]) is a parameter of the development. *)

From Stdlib Require Import ZArith QArith Qround String Ascii List Bool Lia.
From Stdlib Require Import DecimalString DecimalPos DecimalZ.
Import ListNotations.

Local Open Scope string_scope.
Local Open Scope Z_scope.
Set Warnings "-register-all".

(* ================================================================== *)
(** ** JavaScript values that come out of [JSON.parse] *)

Module JS.

(** A number is a finite double, read as the rational it denotes.  A
    string is held as the bytes of its UTF-8 encoding.  An object keeps
    its own properties in insertion order; a parsed object has each key
    once, and [lookup] takes the first occurrence. *)
Inductive JSON : Type :=
| JNull
| JBool (b : bool)
| JNum (q : Q)
| JStr (s : string)
| JArr (items : list JSON)
| JObj (fields : list (string * JSON)).

(** [o[key]] on a list of own properties; [None] is [undefined]. *)
Fixpoint lookup (key : string) (fields : list (string * JSON)) : option JSON :=
  match fields with
  | [] => None
  | (k, v) :: rest => if String.eqb k key then Some v else lookup key rest
  end.

(** [v.key] and [v?.key]: only objects own properties named by the
    schemas; primitives, arrays and [null] (through [?.]) give
    [undefined]. *)
Definition get (key : string) (v : JSON) : option JSON :=
  match v with
  | JObj fields => lookup key fields
  | _ => None
  end.

(** ToBoolean. *)
Definition truthy (v : option JSON) : bool :=
  match v with
  | None => false
  | Some JNull => false
  | Some (JBool b) => b
  | Some (JNum q) => negb (Qeq_bool q 0)
  | Some (JStr s) => negb (String.eqb s EmptyString)
  | Some (JArr _) => true
  | Some (JObj _) => true
  end.

(** [a || b] on possibly undefined values. *)
Definition or_else (a b : option JSON) : option JSON :=
  if truthy a then a else b.

Definition LF : string := String (ascii_of_nat 10) EmptyString.

(** [parts.join(sep)] on strings. *)
Fixpoint join (sep : string) (parts : list string) : string :=
  match parts with
  | [] => EmptyString
  | [p] => p
  | p :: rest => p ++ sep ++ join sep rest
  end.

(** Template-literal conversion of an integer-valued number. *)
Definition string_of_Z (z : Z) : string :=
  NilZero.string_of_int (Z.to_int z).

(** [Array.prototype.slice(0, end)] for an integer [end]: a negative
    [end] counts from the back. *)
Definition slice0 {A : Type} (l : list A) (end_ : Z) : list A :=
  let len := Z.of_nat (length l) in
  let k := if end_ <? 0 then Z.max (len + end_) 0 else Z.min end_ len in
  firstn (Z.to_nat k) l.

(** [s.length]: the number of UTF-16 code units of the string whose
    UTF-8 bytes are [s].  A byte below 0x80 or a lead byte of a two- or
    three-byte sequence starts a character of one code unit, a lead byte
    of a four-byte sequence starts a surrogate pair, and a continuation
    byte (0x80 to 0xBF) starts nothing. *)
Definition code_units (c : ascii) : nat :=
  let n := nat_of_ascii c in
  if Nat.ltb n 128 then 1%nat
  else if Nat.ltb n 192 then 0%nat
  else if Nat.ltb n 240 then 1%nat
  else 2%nat.

Fixpoint utf16_length (s : string) : nat :=
  match s with
  | EmptyString => 0%nat
  | String c rest => (code_units c + utf16_length rest)%nat
  end.

(** ToString of a parsed value, as [JSON.parse] applies it to an argument
    that is not a string; [num] is the runtime's Number::toString and
    [None] is a thrown [TypeError].  An array joins its elements with
    commas, [null] elements printing as the empty string.  A plain object
    prints through [Object.prototype.toString], unless it owns a
    [toString] property: that property, coming from JSON, is not
    callable, the inherited [valueOf] returns the object itself, and the
    conversion throws. *)
Fixpoint ToString (num : Q -> string) (v : JSON) : option string :=
  match v with
  | JNull => Some "null"
  | JBool true => Some "true"
  | JBool false => Some "false"
  | JNum q => Some (num q)
  | JStr s => Some s
  | JArr items =>
      option_map (join ",")
        ((fix each (l : list JSON) : option (list string) :=
            match l with
            | [] => Some []
            | i :: rest =>
                match match i with
                      | JNull => Some EmptyString
                      | _ => ToString num i
                      end with
                | Some s =>
                    match each rest with
                    | Some r => Some (s :: r)
                    | None => None
                    end
                | None => None
                end
            end) items)
  | JObj fields =>
      match lookup "toString" fields with
      | Some _ => None
      | None => Some "[object Object]"
      end
  end.

(** No character of [s] is [c]. *)
Fixpoint free_of (c : ascii) (s : string) : Prop :=
  match s with
  | EmptyString => True
  | String a rest => a <> c /\ free_of c rest
  end.

(** [s.includes(sub)]. *)
Definition contains (sub s : string) : Prop :=
  exists pre post, s = pre ++ sub ++ post.

End JS.
Import JS.

(* ================================================================== *)
(** ** Exceptions and the asynchronous monad *)

(** What a run can throw.  [Error] is [new Error(message)] built by the
    program; [SyntaxError] is raised by the runtime's JSON parser with a
    message of the runtime's choosing; [TypeError] is a rejected [fetch]
    or body read; [ZodError] is a failed [schema.parse]. *)
Inductive Exn : Type :=
| Error (message : string)
| SyntaxError (message : string)
| TypeError
| ZodError.

Inductive Outcome (A : Type) : Type :=
| Return (a : A)
| Throw (e : Exn).
Arguments Return {A} a.
Arguments Throw {A} e.

Definition omap {A B : Type} (f : A -> B) (o : Outcome A) : Outcome B :=
  match o with
  | Return a => Return (f a)
  | Throw e => Throw e
  end.

(** One [fetch] call as the network sees it. *)
Record Request : Type := mkRequest {
  url : string;
  method : string;
  headers : list (string * string);
  body : string
}.

(** The reply to a [fetch] that resolved: [res.ok], [res.status] and the
    body text ([None] when reading the body fails). *)
Record Response : Type := mkResponse {
  ok : bool;
  status : Z;
  text : option string
}.

Inductive FetchOutcome : Type :=
| Rejected
| Resolved (res : Response).

(** The observable world of one invocation. *)
Record World : Type := mkWorld {
  log : list Request;
  clock_reads : nat
}.

Definition Async (A : Type) : Type := World -> Outcome A * World.

Definition ret {A : Type} (a : A) : Async A := fun w => (Return a, w).

Definition throw {A : Type} (e : Exn) : Async A := fun w => (Throw e, w).

Definition bind {A B : Type} (m : Async A) (k : A -> Async B) : Async B :=
  fun w =>
    match m w with
    | (Return a, w') => k a w'
    | (Throw e, w') => (Throw e, w')
    end.

(** Lifting a synchronous outcome (a call that may throw). *)
Definition lift {A : Type} (o : Outcome A) : Async A := fun w => (o, w).

(** [promise.catch(() => fallback)]. *)
Definition catch {A : Type} (m : Async A) (fallback : A) : Async A :=
  fun w =>
    match m w with
    | (Return a, w') => (Return a, w')
    | (Throw _, w') => (Return fallback, w')
    end.

Notation "'await' x <- m ; k" := (bind m (fun x => k))
  (at level 61, x name, m at next level, right associativity).

Notation "'let?' x := m 'in' k" :=
  (match m with Some x => k | None => None end)
  (at level 61, x name, m at next level, right associativity).

(* ================================================================== *)
(** ** Data contracts: the zod schemas *)

(** A schema maps a possibly missing input ([None] is [undefined]) to
    its parsed output, or rejects it. *)
Definition Schema (A : Type) : Type := option JSON -> option A.

Module z.

Definition string : Schema String.string := fun v =>
  match v with
  | Some (JStr s) => Some s
  | _ => None
  end.

Definition number : Schema Q := fun v =>
  match v with
  | Some (JNum q) => Some q
  | _ => None
  end.

Definition boolean : Schema bool := fun v =>
  match v with
  | Some (JBool b) => Some b
  | _ => None
  end.

(** [schema.refine]-like checks: [.min], [.max], [.int] keep the value
    when the test holds. *)
Definition check {A : Type} (test : A -> bool) (s : Schema A) : Schema A :=
  fun v => let? a := s v in if test a then Some a else None.

Definition min (lo : Q) : Schema Q -> Schema Q := check (fun q => Qle_bool lo q).
Definition max (hi : Q) : Schema Q -> Schema Q := check (fun q => Qle_bool q hi).

(** [Number.isInteger]. *)
Definition isInteger (q : Q) : bool := Qeq_bool (inject_Z (Qfloor q)) q.

Definition int (s : Schema Q) : Schema Z :=
  fun v => let? q := s v in if isInteger q then Some (Qfloor q) else None.

Definition min_length (n : nat) : Schema String.string -> Schema String.string :=
  check (fun s => Nat.leb n (utf16_length s)).

Definition optional {A : Type} (s : Schema A) : Schema (option A) := fun v =>
  match v with
  | None => Some None
  | Some _ => let? a := s v in Some (Some a)
  end.

Definition default {A : Type} (d : A) (s : Schema A) : Schema A := fun v =>
  match v with
  | None => Some d
  | Some _ => s v
  end.

Fixpoint each {A : Type} (s : Schema A) (items : list JSON) : option (list A) :=
  match items with
  | [] => Some []
  | i :: rest =>
      let? a := s (Some i) in
      let? r := each s rest in
      Some (a :: r)
  end.

Definition array {A : Type} (s : Schema A) : Schema (list A) := fun v =>
  match v with
  | Some (JArr items) => each s items
  | _ => None
  end.

Definition min_items {A : Type} (n : nat) : Schema (list A) -> Schema (list A) :=
  check (fun l => Nat.leb n (length l)).

(** [z.enum([...])]: a string among the listed ones, parsed to its tag. *)
Fixpoint assoc {A : Type} (s : String.string) (options : list (String.string * A)) : option A :=
  match options with
  | [] => None
  | (k, a) :: rest => if String.eqb k s then Some a else assoc s rest
  end.

Definition enum {A : Type} (options : list (String.string * A)) : Schema A := fun v =>
  match v with
  | Some (JStr s) => assoc s options
  | _ => None
  end.

(** [z.object(shape)] reads the shape's keys from a plain object and
    drops every other key; anything that is not a plain object is
    rejected. *)
Definition object {A : Type} (shape : list (String.string * JSON) -> option A) : Schema A :=
  fun v =>
    match v with
    | Some (JObj fields) => shape fields
    | _ => None
    end.

(** [schema.parse(v)]: the parsed output, or a thrown [ZodError]. *)
Definition parse {A : Type} (s : Schema A) (v : JSON) : Outcome A :=
  match s (Some v) with
  | Some a => Return a
  | None => Throw ZodError
  end.

End z.

Inductive Polarity : Type := affirm | deny | mixed.

Inductive ConflictType : Type :=
| numeric_incompatible
| polarity_incompatible
| scope_mismatch
| definition_shift
| measurement_paradigm_shift
| other.

Inductive Depth : Type := overview | academic.

Module Claim.
Record t : Type := mk {
  claim_id : string;
  assertion : string;
  dimension : string;
  polarity : Polarity;
  value : option string;
  qualifiers : list string;
  definition_notes : option string;
  era_hint : option string;
  confidence : Q;
  why_people_repeat_it : option string
}.
End Claim.

Module ClaimSet.
Record t : Type := mk {
  topic : string;
  claims : list Claim.t
}.
End ClaimSet.

Module Conflict.
Record t : Type := mk {
  conflict_id : string;
  dimension : string;
  claim_a : string;
  claim_b : string;
  conflict_type : ConflictType;
  explanation : string;
  severity : Q;
  researcher_warning : string
}.
End Conflict.

Module Summary.
Record t : Type := mk {
  conflict_count : Z;
  top_dimensions : list string;
  safe_citation_note : string
}.
End Summary.

Module ConflictReport.
Record t : Type := mk {
  topic : string;
  conflicts : list Conflict.t;
  summary : Summary.t
}.
End ConflictReport.

Definition ClaimSchema : Schema Claim.t :=
  z.object (fun o =>
    let? claim_id := z.string (lookup "claim_id" o) in
    let? assertion := z.string (lookup "assertion" o) in
    let? dimension := z.string (lookup "dimension" o) in
    let? polarity :=
      z.enum [("affirm", affirm); ("deny", deny); ("mixed", mixed)]
        (lookup "polarity" o) in
    let? value := z.optional z.string (lookup "value" o) in
    let? qualifiers := z.default [] (z.array z.string) (lookup "qualifiers" o) in
    let? definition_notes := z.optional z.string (lookup "definition_notes" o) in
    let? era_hint := z.optional z.string (lookup "era_hint" o) in
    let? confidence := z.max 1 (z.min 0 z.number) (lookup "confidence" o) in
    let? why_people_repeat_it :=
      z.optional z.string (lookup "why_people_repeat_it" o) in
    Some (Claim.mk claim_id assertion dimension polarity value qualifiers
            definition_notes era_hint confidence why_people_repeat_it)).

(** The keys [ClaimSchema] reads. *)
Definition ClaimSchema_keys : list string :=
  ["claim_id"; "assertion"; "dimension"; "polarity"; "value"; "qualifiers";
   "definition_notes"; "era_hint"; "confidence"; "why_people_repeat_it"].

(** An entry with one more property. *)
Definition add_field (key : string) (x : JSON) (entry : JSON) : JSON :=
  match entry with
  | JObj fields => JObj ((key, x) :: fields)
  | _ => entry
  end.

Definition ClaimSetSchema : Schema ClaimSet.t :=
  z.object (fun o =>
    let? topic := z.string (lookup "topic" o) in
    let? claims := z.min_items 3 (z.array ClaimSchema) (lookup "claims" o) in
    Some (ClaimSet.mk topic claims)).

Definition ConflictSchema : Schema Conflict.t :=
  z.object (fun o =>
    let? conflict_id := z.string (lookup "conflict_id" o) in
    let? dimension := z.string (lookup "dimension" o) in
    let? claim_a := z.string (lookup "claim_a" o) in
    let? claim_b := z.string (lookup "claim_b" o) in
    let? conflict_type :=
      z.enum [("numeric_incompatible", numeric_incompatible);
              ("polarity_incompatible", polarity_incompatible);
              ("scope_mismatch", scope_mismatch);
              ("definition_shift", definition_shift);
              ("measurement_paradigm_shift", measurement_paradigm_shift);
              ("other", other)]
        (lookup "conflict_type" o) in
    let? explanation := z.string (lookup "explanation" o) in
    let? severity := z.max 1 (z.min 0 z.number) (lookup "severity" o) in
    let? researcher_warning := z.string (lookup "researcher_warning" o) in
    Some (Conflict.mk conflict_id dimension claim_a claim_b conflict_type
            explanation severity researcher_warning)).

Definition SummarySchema : Schema Summary.t :=
  z.object (fun o =>
    let? conflict_count :=
      z.check (fun n => 0 <=? n) (z.int z.number) (lookup "conflict_count" o) in
    let? top_dimensions :=
      z.default [] (z.array z.string) (lookup "top_dimensions" o) in
    let? safe_citation_note := z.string (lookup "safe_citation_note" o) in
    Some (Summary.mk conflict_count top_dimensions safe_citation_note)).

Definition ConflictReportSchema : Schema ConflictReport.t :=
  z.object (fun o =>
    let? topic := z.string (lookup "topic" o) in
    let? conflicts := z.array ConflictSchema (lookup "conflicts" o) in
    let? summary := SummarySchema (lookup "summary" o) in
    Some (ConflictReport.mk topic conflicts summary)).

(* ================================================================== *)
(** ** Tool inputs and the composite result *)

Module DiscoverInput.
Record t : Type := mk {
  topic : string;
  domain : option string;
  depth : Depth;
  max_claims : Z;
  strict_no_sources : bool
}.
End DiscoverInput.

(** The raw shape given to [mcp.tool]; the server parses the arguments
    of a call with it before the handler runs. *)
Definition DiscoverInputSchema : Schema DiscoverInput.t :=
  z.object (fun o =>
    let? topic := z.min_length 2 z.string (lookup "topic" o) in
    let? domain := z.optional z.string (lookup "domain" o) in
    let? depth :=
      z.default academic
        (z.enum [("overview", overview); ("academic", academic)])
        (lookup "depth" o) in
    let? max_claims :=
      z.default 18
        (z.check (fun n => n <=? 40)
           (z.check (fun n => 5 <=? n) (z.int z.number)))
        (lookup "max_claims" o) in
    let? strict_no_sources :=
      z.default true z.boolean (lookup "strict_no_sources" o) in
    Some (DiscoverInput.mk topic domain depth max_claims strict_no_sources)).

(** The raw shape of the attribution tool: [found_via] is one of five
    strings. *)
Definition AttributionInputSchema : Schema string :=
  z.object (fun o =>
    let? found_via :=
      z.enum [("directory", "directory");
              ("chatgpt_suggested", "chatgpt_suggested");
              ("link", "link");
              ("friend", "friend");
              ("other", "other")]
        (lookup "found_via" o) in
    Some found_via).

(** [{ ...report, claims }]. *)
Module Discovery.
Record t : Type := mk {
  topic : string;
  conflicts : list Conflict.t;
  summary : Summary.t;
  claims : list Claim.t
}.
End Discovery.

Record ToolResult : Type := mkToolResult {
  content : list (list (string * string));
  structuredContent : option Discovery.t;
  _meta : list (string * JSON)
}.

(* ================================================================== *)
(** ** Serialising parsed values back into request payloads *)

(** A property whose value is [undefined] is left out by
    [JSON.stringify]. *)
Definition opt_field (key : string) (v : option string) : list (string * JSON) :=
  match v with
  | Some s => [(key, JStr s)]
  | None => []
  end.

Definition polarity_name (p : Polarity) : string :=
  match p with
  | affirm => "affirm"
  | deny => "deny"
  | mixed => "mixed"
  end.

Definition depth_name (d : Depth) : string :=
  match d with
  | overview => "overview"
  | academic => "academic"
  end.

(** A parsed claim as the object zod returned: the shape's keys in
    order, absent optional keys left out. *)
Definition json_of_Claim (c : Claim.t) : JSON :=
  JObj ([("claim_id", JStr (Claim.claim_id c));
         ("assertion", JStr (Claim.assertion c));
         ("dimension", JStr (Claim.dimension c));
         ("polarity", JStr (polarity_name (Claim.polarity c)))]
        ++ opt_field "value" (Claim.value c)
        ++ [("qualifiers", JArr (map JStr (Claim.qualifiers c)))]
        ++ opt_field "definition_notes" (Claim.definition_notes c)
        ++ opt_field "era_hint" (Claim.era_hint c)
        ++ [("confidence", JNum (Claim.confidence c))]
        ++ opt_field "why_people_repeat_it" (Claim.why_people_repeat_it c)).

(** [{ topic, domain, depth }], the stage-1 payload. *)
Definition stage1_payload (topic : string) (domain : option string) (depth : Depth) : JSON :=
  JObj ([("topic", JStr topic)]
        ++ opt_field "domain" domain
        ++ [("depth", JStr (depth_name depth))]).

(** [{ topic: claimSet.topic, claims }], the stage-2 payload. *)
Definition stage2_payload (topic : string) (claims : list Claim.t) : JSON :=
  JObj [("topic", JStr topic); ("claims", JArr (map json_of_Claim claims))].

(* ================================================================== *)
(** ** Prompt policy *)

Definition antiCitation (strict_no_sources : bool) : string :=
  if strict_no_sources
  then "Do NOT fabricate citations, paper titles, authors, journals, or DOIs."
  else "Do not fabricate citations.".

Definition stage1_instructions (max_claims : Z) (strict_no_sources : bool) : string :=
  join LF
    ["You enumerate conflicting scientific claims that exist in the literature or popular summaries.";
     "Do not reconcile disagreements. Do not average them.";
     "Each claim must be atomic and testable.";
     "Separate by paradigm, definition, and scope when relevant.";
     antiCitation strict_no_sources;
     "Max claims: " ++ string_of_Z max_claims].

Definition stage2_instructions (strict_no_sources : bool) : string :=
  join LF
    ["You are a contradiction auditor.";
     "Given claims, identify conflicts that cannot both be true under the same scope and definition.";
     "If contradiction depends on scope/definition shifts, mark conflict_type accordingly.";
     "Prioritize conflicts that would mislead a researcher if cited without qualifiers.";
     antiCitation strict_no_sources].

(* ================================================================== *)
(** ** Configuration, runtime and environment *)

Record Config : Type := mkConfig {
  OPENAI_API_KEY : string;
  POSTHOG_API_KEY : string;
  POSTHOG_HOST : string;
  MODEL : string
}.

(** The JavaScript runtime: [JSON.parse] answers a value or the message
    of the [SyntaxError] it throws. *)
Record Runtime : Type := mkRuntime {
  JSON_parse : string -> JSON + string;
  JSON_stringify : JSON -> string;
  Number_toString : Q -> string
}.

(** The outside world: what [fetch] answers to a request, given the
    requests made before it, and what the n-th read of the clock
    shows. *)
Record Env : Type := mkEnv {
  net : list Request -> Request -> FetchOutcome;
  clock : nat -> Z
}.

Definition openai_url : string := "https://api.openai.com/v1/responses".

(** [process.env.NAME || fallback]: an unset variable and an empty one
    both give the fallback. *)
Definition env_or (environ : string -> option string) (name fallback : string) : string :=
  match environ name with
  | Some s => if String.eqb s EmptyString then fallback else s
  | None => fallback
  end.

(** Module initialisation: the credential is required, the analytics
    settings default to the empty string and the model to [gpt-5]. *)
Definition startup (environ : string -> option string) : Outcome Config :=
  match environ "OPENAI_API_KEY" with
  | Some key =>
      if String.eqb key EmptyString
      then Throw (Error "Missing OPENAI_API_KEY")
      else Return (mkConfig key
                     (env_or environ "POSTHOG_API_KEY" EmptyString)
                     (env_or environ "POSTHOG_HOST" EmptyString)
                     (env_or environ "OPENAI_MODEL" "gpt-5"))
  | None => Throw (Error "Missing OPENAI_API_KEY")
  end.

(* ================================================================== *)
(** ** The server *)

Section Server.

Variable cfg : Config.
Variable rt : Runtime.
Variable env : Env.

(** [JSON.parse(text)] on a string. *)
Definition parse_text (txt : string) : Outcome JSON :=
  match JSON_parse rt txt with
  | inl v => Return v
  | inr message => Throw (SyntaxError message)
  end.

(** [JSON.parse(x)] on any value: the argument is first converted to a
    string, which may throw. *)
Definition JSON_parse_value (x : option JSON) : Outcome JSON :=
  match x with
  | Some v =>
      match ToString (Number_toString rt) v with
      | Some txt => parse_text txt
      | None => Throw TypeError
      end
  | None => parse_text "undefined"
  end.

(** [fetch(request)]: the call is logged, then resolves or rejects as
    the network decides. *)
Definition fetch (req : Request) : Async Response := fun w =>
  let w' := mkWorld (log w ++ [req]) (clock_reads w) in
  match net env (log w) req with
  | Rejected => (Throw TypeError, w')
  | Resolved res => (Return res, w')
  end.

(** [res.text()]. *)
Definition res_text (res : Response) : Async string :=
  lift (match text res with
        | Some t => Return t
        | None => Throw TypeError
        end).

(** [res.json()]: the body text run through the JSON parser. *)
Definition res_json (res : Response) : Async JSON :=
  lift (match text res with
        | Some t => parse_text t
        | None => Throw TypeError
        end).

(** [Date.now()]. *)
Definition Date_now : Async Z := fun w =>
  (Return (clock env (clock_reads w)), mkWorld (log w) (S (clock_reads w))).

Definition openai_body (instructions input : string) : JSON :=
  JObj [("model", JStr (MODEL cfg));
        ("instructions",
         JStr (instructions ++ LF
               ++ "Return ONLY valid JSON. No markdown. No commentary."));
        ("input", JStr input)].

Definition openai_request (instructions input : string) : Request :=
  mkRequest openai_url "POST"
    [("Content-Type", "application/json");
     ("Authorization", "Bearer " ++ OPENAI_API_KEY cfg)]
    (JSON_stringify rt (openai_body instructions input)).

Definition openaiJSON (instructions input : string) : Async JSON :=
  await res <- fetch (openai_request instructions input);
  if negb (ok res) then
    await txt <- catch (res_text res) EmptyString;
    throw (Error ("OpenAI error " ++ string_of_Z (status res) ++ ": " ++ txt))
  else
    await data <- res_json res;
    let txt := or_else (get "output_text" data) (Some (JStr EmptyString)) in
    lift (JSON_parse_value txt).

Definition discoverConflicts (args : DiscoverInput.t) : Async Discovery.t :=
  let antiCitation := antiCitation (DiscoverInput.strict_no_sources args) in
  await raw1 <-
    openaiJSON
      (stage1_instructions (DiscoverInput.max_claims args)
         (DiscoverInput.strict_no_sources args))
      (JSON_stringify rt
         (stage1_payload (DiscoverInput.topic args) (DiscoverInput.domain args)
            (DiscoverInput.depth args)));
  await claimSet <- lift (z.parse ClaimSetSchema raw1);
  let claims := slice0 (ClaimSet.claims claimSet) (DiscoverInput.max_claims args) in
  await raw2 <-
    openaiJSON
      (stage2_instructions (DiscoverInput.strict_no_sources args))
      (JSON_stringify rt (stage2_payload (ClaimSet.topic claimSet) claims));
  await report <- lift (z.parse ConflictReportSchema raw2);
  ret (Discovery.mk (ConflictReport.topic report) (ConflictReport.conflicts report)
         (ConflictReport.summary report) claims).

(** The two generative calls of a run, as [discoverConflicts] makes
    them: the instructions, the payload and the request that reaches the
    network. *)
Definition stage1_call (args : DiscoverInput.t) : Async JSON :=
  openaiJSON
    (stage1_instructions (DiscoverInput.max_claims args)
       (DiscoverInput.strict_no_sources args))
    (JSON_stringify rt
       (stage1_payload (DiscoverInput.topic args) (DiscoverInput.domain args)
          (DiscoverInput.depth args))).

Definition stage2_call (args : DiscoverInput.t) (topic : string)
    (claims : list Claim.t) : Async JSON :=
  openaiJSON
    (stage2_instructions (DiscoverInput.strict_no_sources args))
    (JSON_stringify rt (stage2_payload topic claims)).

Definition stage1_request (args : DiscoverInput.t) : Request :=
  openai_request
    (stage1_instructions (DiscoverInput.max_claims args)
       (DiscoverInput.strict_no_sources args))
    (JSON_stringify rt
       (stage1_payload (DiscoverInput.topic args) (DiscoverInput.domain args)
          (DiscoverInput.depth args))).

Definition stage2_request (args : DiscoverInput.t) (topic : string)
    (claims : list Claim.t) : Request :=
  openai_request
    (stage2_instructions (DiscoverInput.strict_no_sources args))
    (JSON_stringify rt (stage2_payload topic claims)).

Definition posthog_request (event : string) (properties : list (string * JSON)) : Request :=
  let distinctId :=
    or_else
      (or_else (lookup "distinct_id" properties)
         (lookup "widget_session_id" properties))
      (Some (JStr "unknown")) in
  mkRequest (POSTHOG_HOST cfg ++ "/capture/") "POST"
    [("Content-Type", "application/json")]
    (JSON_stringify rt
       (JObj ([("api_key", JStr (POSTHOG_API_KEY cfg))]
              ++ match distinctId with
                 | Some d => [("distinct_id", d)]
                 | None => []
                 end
              ++ [("event", JStr event); ("properties", JObj properties)]))).

Definition trackEvent (event : string) (properties : list (string * JSON)) : Async unit :=
  if (String.eqb (POSTHOG_API_KEY cfg) EmptyString
      || String.eqb (POSTHOG_HOST cfg) EmptyString)%bool
  then ret tt
  else
    catch (await _res <- fetch (posthog_request event properties); ret tt) tt.

(** The properties of the [conflict_lens_run] event.  The parsed summary
    always carries [conflict_count], so the [??] fallback to
    [result.conflicts.length] is never taken. *)
Definition run_properties (args : DiscoverInput.t) (result : Discovery.t)
    (elapsedMs : Z) : list (string * JSON) :=
  [("distinct_id", JStr (DiscoverInput.topic args));
   ("topic", JStr (DiscoverInput.topic args));
   ("domain",
    match or_else (option_map JStr (DiscoverInput.domain args))
            (Some (JStr EmptyString)) with
    | Some d => d
    | None => JStr EmptyString
    end);
   ("depth", JStr (depth_name (DiscoverInput.depth args)));
   ("max_claims", JNum (inject_Z (DiscoverInput.max_claims args)));
   ("conflict_count",
    JNum (inject_Z (Summary.conflict_count (Discovery.summary result))));
   ("elapsed_ms", JNum (inject_Z elapsedMs))].

(** What the discovery tool answers for a result. *)
Definition report_ready (result : Discovery.t) : ToolResult :=
  mkToolResult
    [[("type", "text"); ("text", "Conflict Lens report ready.")]]
    (Some result)
    [("openai/outputTemplate", JStr "ui://conflict-lens/widget");
     ("openai/widgetAccessible", JBool true)].

Definition discover_conflicting_claims (args : DiscoverInput.t) : Async ToolResult :=
  await startedAt <- Date_now;
  await result <- discoverConflicts args;
  await now <- Date_now;
  let elapsedMs := now - startedAt in
  await _u <- trackEvent "conflict_lens_run" (run_properties args result elapsedMs);
  ret (report_ready result).

Definition track_attribution (found_via : string) : Async ToolResult :=
  await _u <-
    trackEvent "conflict_lens_found_via"
      [("distinct_id", JStr "attribution"); ("found_via", JStr found_via)];
  ret (mkToolResult [[("type", "text"); ("text", "Thanks. Saved.")]] None []).

End Server.

(* ================================================================== *)
(** ** Concrete runs

    A small runtime and scripted networks on which the pipeline can be
    evaluated.  [render] prints the values used below as JSON text
    (strings with their quotes and backslashes escaped, integers in
    decimal); the runtime parses exactly the texts listed in [known] back
    to the values they were printed from and reports every other text as
    a syntax error. *)

Module Scenario.

Definition dq : string := String (ascii_of_nat 34) EmptyString.
Definition backslash : string := String (ascii_of_nat 92) EmptyString.

Fixpoint escape (s : string) : string :=
  match s with
  | EmptyString => EmptyString
  | String c rest =>
      if Ascii.eqb c (ascii_of_nat 34) then backslash ++ dq ++ escape rest
      else if Ascii.eqb c (ascii_of_nat 92) then backslash ++ backslash ++ escape rest
      else String c (escape rest)
  end.

Definition quote (s : string) : string := dq ++ escape s ++ dq.

(** Integers print in decimal; the runs below use no other number. *)
Definition render_number (q : Q) : string :=
  if z.isInteger q then string_of_Z (Qfloor q)
  else string_of_Z (Qnum q) ++ "/" ++ string_of_Z (Zpos (Qden q)).

Fixpoint render (v : JSON) : string :=
  match v with
  | JNull => "null"
  | JBool true => "true"
  | JBool false => "false"
  | JNum q => render_number q
  | JStr s => quote s
  | JArr items => "[" ++ join "," (map render items) ++ "]"
  | JObj fields =>
      "{" ++ join "," (map (fun '(k, x) => quote k ++ ":" ++ render x) fields) ++ "}"
  end.

Fixpoint parse_known (known : list JSON) (txt : string) : JSON + string :=
  match known with
  | [] => inr "Unexpected end of JSON input"
  | v :: rest => if String.eqb (render v) txt then inl v else parse_known rest txt
  end.

(** The body of a successful upstream reply carrying [v] as its output
    text. *)
Definition envelope (v : JSON) : JSON := JObj [("output_text", JStr (render v))].

Definition claim (id : string) : JSON :=
  JObj [("claim_id", JStr id);
        ("assertion", JStr ("assertion of " ++ id));
        ("dimension", JStr "dose");
        ("polarity", JStr "affirm");
        ("confidence", JNum 1)].

(** Nine claims, more than the cap of five asked for below; the model
    names its own topic. *)
Definition nine_claims : JSON :=
  JObj [("topic", JStr "coffee and health");
        ("claims",
         JArr (map claim ["c1"; "c2"; "c3"; "c4"; "c5"; "c6"; "c7"; "c8"; "c9"]))].

(** Two claims only. *)
Definition two_claims : JSON :=
  JObj [("topic", JStr "coffee and health");
        ("claims", JArr (map claim ["c1"; "c2"]))].

Definition conflict (id a b : string) : JSON :=
  JObj [("conflict_id", JStr id);
        ("dimension", JStr "dose");
        ("claim_a", JStr a);
        ("claim_b", JStr b);
        ("conflict_type", JStr "numeric_incompatible");
        ("explanation", JStr "the two doses differ");
        ("severity", JNum 1);
        ("researcher_warning", JStr "state the dose")].

Definition report (conflicts : list JSON) (count : Z) : JSON :=
  JObj [("topic", JStr "caffeine");
        ("conflicts", JArr conflicts);
        ("summary",
         JObj [("conflict_count", JNum (inject_Z count));
               ("safe_citation_note", JStr "cite with qualifiers")])].

(** A report whose only conflict is between two kept claims. *)
Definition sound_report : JSON := report [conflict "k1" "c1" "c2"] 1.

(** A report whose conflict points at [c9], a claim cut by the cap. *)
Definition dangling_report : JSON := report [conflict "k1" "c1" "c9"] 1.

(** A report that counts seven conflicts and lists none. *)
Definition miscounted_report : JSON := report [] 7.

Definition outputs : list JSON :=
  [nine_claims; two_claims; sound_report; dangling_report; miscounted_report].

Definition known : list JSON := outputs ++ map envelope outputs.

Definition runtime : Runtime :=
  mkRuntime (parse_known known) render render_number.

Definition config : Config :=
  mkConfig "sk-test" "phc-test" "https://posthog.test" "gpt-5".

(** A configuration without analytics credentials. *)
Definition config_no_analytics : Config :=
  mkConfig "sk-test" EmptyString EmptyString "gpt-5".

(** A network that answers the n-th request of a run with the n-th
    scripted reply and rejects once the script is used up. *)
Definition scripted (replies : list FetchOutcome) : Env :=
  mkEnv (fun history _ => nth (length history) replies Rejected)
        (fun n => 1000 + 250 * Z.of_nat n).

Definition success (v : JSON) : FetchOutcome :=
  Resolved (mkResponse true 200 (Some (render (envelope v)))).

Definition failure (code : Z) (body : string) : FetchOutcome :=
  Resolved (mkResponse false code (Some body)).

(** A successful reply whose body is the given raw text. *)
Definition raw_success (txt : string) : FetchOutcome :=
  Resolved (mkResponse true 200 (Some txt)).

(** The arguments [{ topic: "coffee", max_claims: 5 }] of a tool call. *)
Definition raw_args : JSON :=
  JObj [("topic", JStr "coffee"); ("max_claims", JNum 5)].

Definition args : DiscoverInput.t :=
  DiscoverInput.mk "coffee" None academic 5 true.

Definition w0 : World := mkWorld [] 0.

(** Nine claims come back, then a report. *)
Definition net_sound : Env := scripted [success nine_claims; success sound_report].

(** Nine claims come back, then a report naming a claim that was cut. *)
Definition net_dangling : Env :=
  scripted [success nine_claims; success dangling_report].

(** Nine claims come back, then a report with a wrong count. *)
Definition net_miscounted : Env :=
  scripted [success nine_claims; success miscounted_report].

(** Nine claims come back, then the upstream answers 500. *)
Definition net_stage2_down : Env :=
  scripted [success nine_claims; failure 500 "boom"].

(** Only two claims come back. *)
Definition net_two_claims : Env :=
  scripted [success two_claims; success sound_report].

(** U+4E2D, one character of three UTF-8 bytes and one code unit. *)
Definition zhong : string :=
  String (ascii_of_nat 228)
    (String (ascii_of_nat 184) (String (ascii_of_nat 173) EmptyString)).

(** U+1F600, one character of four UTF-8 bytes and two code units. *)
Definition grinning_face : string :=
  String (ascii_of_nat 240)
    (String (ascii_of_nat 159)
       (String (ascii_of_nat 152) (String (ascii_of_nat 128) EmptyString))).

(** A reply body whose [output_text] is an object owning a [toString]
    property, and a runtime that also parses that body. *)
Definition odd_reply : JSON :=
  JObj [("output_text", JObj [("toString", JNum 1)])].

Definition runtime_odd : Runtime :=
  mkRuntime (parse_known (odd_reply :: known)) render render_number.

(** A process environment that sets the credential and nothing else. *)
Definition environ (name : string) : option string :=
  if String.eqb name "OPENAI_API_KEY" then Some "sk-test" else None.

(** A claim set with an entry that is no claim. *)
Definition broken_claims : list (string * JSON) :=
  [("topic", JStr "coffee and health");
   ("claims", JArr [claim "c1"; JNull; claim "c2"; claim "c3"])].

(** The same network with the analytics endpoint unreachable, and a
    clock of its own. *)
Definition analytics_down (e : Env) : Env :=
  mkEnv (fun history req =>
           if String.eqb (url req) openai_url then net e history req else Rejected)
        (fun n => 7 * Z.of_nat n).

End Scenario.

(* ================================================================== *)
(** * Properties *)

(** ** The definitions on small inputs *)

Example string_of_Z_cap : string_of_Z 18 = "18".
Proof. reflexivity. Qed.

Example string_of_Z_status : string_of_Z 500 = "500".
Proof. reflexivity. Qed.

Example slice0_within : slice0 [1; 2; 3] 2 = [1; 2].
Proof. reflexivity. Qed.

Example slice0_beyond : slice0 [1; 2; 3] 7 = [1; 2; 3].
Proof. reflexivity. Qed.

Example slice0_negative : slice0 [1; 2; 3] (-1) = [1; 2].
Proof. reflexivity. Qed.

Example ToString_array :
  ToString Scenario.render_number (JArr [JNull; JStr "a"; JNum 5]) = Some ",a,5".
Proof. reflexivity. Qed.

Example ToString_object :
  ToString Scenario.render_number (JObj [("a", JNull)]) = Some "[object Object]".
Proof. reflexivity. Qed.

Example ToString_object_owning_toString :
  ToString Scenario.render_number (JObj [("toString", JNum 1)]) = None.
Proof. reflexivity. Qed.

Example ToString_array_holding_such_an_object :
  ToString Scenario.render_number (JArr [JStr "a"; JObj [("toString", JNum 1)]])
  = None.
Proof. reflexivity. Qed.

Example utf16_length_ascii : utf16_length "coffee" = 6%nat.
Proof. reflexivity. Qed.

Example utf16_length_three_byte_character :
  utf16_length Scenario.zhong = 1%nat.
Proof. reflexivity. Qed.

Example utf16_length_four_byte_character :
  utf16_length Scenario.grinning_face = 2%nat.
Proof. reflexivity. Qed.

Example DiscoverInputSchema_one_character_topic :
  DiscoverInputSchema (Some (JObj [("topic", JStr Scenario.zhong)])) = None.
Proof. reflexivity. Qed.

Example DiscoverInputSchema_surrogate_pair_topic :
  DiscoverInputSchema (Some (JObj [("topic", JStr Scenario.grinning_face)]))
  = Some (DiscoverInput.mk Scenario.grinning_face None academic 18 true).
Proof. reflexivity. Qed.

Example DiscoverInputSchema_defaults :
  DiscoverInputSchema (Some (JObj [("topic", JStr "coffee")]))
  = Some (DiscoverInput.mk "coffee" None academic 18 true).
Proof. reflexivity. Qed.

Example DiscoverInputSchema_cap_too_large :
  DiscoverInputSchema
    (Some (JObj [("topic", JStr "coffee"); ("max_claims", JNum 41)]))
  = None.
Proof. reflexivity. Qed.

Example DiscoverInputSchema_cap_not_integer :
  DiscoverInputSchema
    (Some (JObj [("topic", JStr "coffee"); ("max_claims", JNum (11 # 2))]))
  = None.
Proof. reflexivity. Qed.

Example ClaimSchema_accepts :
  ClaimSchema (Some (Scenario.claim "c1"))
  = Some (Claim.mk "c1" "assertion of c1" "dose" affirm None [] None None 1 None).
Proof. reflexivity. Qed.

Example ClaimSchema_null_is_not_absent :
  ClaimSchema (Some (add_field "value" JNull (Scenario.claim "c1"))) = None.
Proof. reflexivity. Qed.

Example ClaimSchema_confidence_out_of_range :
  ClaimSchema (Some (add_field "confidence" (JNum (3 # 2)) (Scenario.claim "c1")))
  = None.
Proof. reflexivity. Qed.

Example ClaimSetSchema_rejects_arrays :
  ClaimSetSchema (Some (JArr [])) = None.
Proof. reflexivity. Qed.

Example ConflictReportSchema_empty_is_valid :
  z.parse ConflictReportSchema (Scenario.report [] 0)
  = Return (ConflictReport.mk "caffeine" []
              (Summary.mk 0 [] "cite with qualifiers")).
Proof. reflexivity. Qed.

Example run_sound :
  fst (discover_conflicting_claims Scenario.config Scenario.runtime
         Scenario.net_sound Scenario.args Scenario.w0)
  = omap report_ready
      (fst (discoverConflicts Scenario.config Scenario.runtime
              Scenario.net_sound Scenario.args Scenario.w0)).
Proof. vm_compute. reflexivity. Qed.

Example run_sound_requests :
  map url
    (log (snd (discover_conflicting_claims Scenario.config Scenario.runtime
                 Scenario.net_sound Scenario.args Scenario.w0)))
  = [openai_url; openai_url; "https://posthog.test/capture/"].
Proof. vm_compute. reflexivity. Qed.

Example run_without_analytics_requests :
  map url
    (log (snd (discover_conflicting_claims Scenario.config_no_analytics
                 Scenario.runtime Scenario.net_sound Scenario.args Scenario.w0)))
  = [openai_url; openai_url].
Proof. vm_compute. reflexivity. Qed.

(** ** The asynchronous monad *)

Lemma bind_Return {A B : Type} (m : Async A) (k : A -> Async B) w a w' :
  m w = (Return a, w') -> bind m k w = k a w'.
Proof. intros H. unfold bind. now rewrite H. Qed.

Lemma bind_Throw {A B : Type} (m : Async A) (k : A -> Async B) w e w' :
  m w = (Throw e, w') -> bind m k w = (Throw e, w').
Proof. intros H. unfold bind. now rewrite H. Qed.

Lemma bind_inv {A B : Type} (m : Async A) (k : A -> Async B) w b w2 :
  bind m k w = (Return b, w2) ->
  exists a w1, m w = (Return a, w1) /\ k a w1 = (Return b, w2).
Proof.
  unfold bind. destruct (m w) as [[a | e] w1]; intros H.
  - now exists a, w1.
  - discriminate.
Qed.

Lemma catch_never_throws {A : Type} (m : Async A) (fallback : A) w :
  exists a, fst (catch m fallback w) = Return a.
Proof.
  unfold catch. destruct (m w) as [[a | e] w1]; simpl; eauto.
Qed.

(** ** Schema combinators *)

Lemma check_inv {A : Type} (test : A -> bool) (s : Schema A) v a :
  z.check test s v = Some a -> s v = Some a /\ test a = true.
Proof.
  unfold z.check. destruct (s v) as [x |]; [| discriminate].
  destruct (test x) eqn:T; [| discriminate].
  intros H. injection H as <-. auto.
Qed.

Lemma default_inv {A : Type} (d : A) (s : Schema A) v a :
  z.default d s v = Some a -> (v = None /\ a = d) \/ s v = Some a.
Proof.
  unfold z.default. destruct v; intros H; [now right |].
  injection H as <-. now left.
Qed.

Lemma string_inv v s : z.string v = Some s -> v = Some (JStr s).
Proof.
  unfold z.string. destruct v as [[] |]; try discriminate.
  now intros [= ->].
Qed.

Lemma array_inv {A : Type} (s : Schema A) v l :
  z.array s v = Some l -> exists items, v = Some (JArr items) /\ z.each s items = Some l.
Proof.
  unfold z.array. destruct v as [[] |]; try discriminate. eauto.
Qed.

Lemma each_length {A : Type} (s : Schema A) items l :
  z.each s items = Some l -> length l = length items.
Proof.
  revert l. induction items as [| i rest IH]; simpl; intros l H.
  - now injection H as <-.
  - destruct (s (Some i)); [| discriminate].
    destruct (z.each s rest) as [r |]; [| discriminate].
    injection H as <-. simpl. f_equal. now apply IH.
Qed.

Lemma each_Forall2 {A : Type} (s : Schema A) items l :
  z.each s items = Some l -> Forall2 (fun i a => s (Some i) = Some a) items l.
Proof.
  revert l. induction items as [| i rest IH]; simpl; intros l H.
  - injection H as <-. constructor.
  - destruct (s (Some i)) as [a |] eqn:E; [| discriminate].
    destruct (z.each s rest) as [r |]; [| discriminate].
    injection H as <-. constructor; auto.
Qed.

Lemma object_inv {A : Type} (shape : list (string * JSON) -> option A) v a :
  z.object shape v = Some a -> exists o, v = Some (JObj o) /\ shape o = Some a.
Proof.
  unfold z.object. destruct v as [[] |]; try discriminate. eauto.
Qed.

Lemma parse_Return {A : Type} (s : Schema A) v a :
  z.parse s v = Return a <-> s (Some v) = Some a.
Proof.
  unfold z.parse. destruct (s (Some v)); split; congruence.
Qed.

Lemma parse_Throw {A : Type} (s : Schema A) v e :
  z.parse s v = Throw e -> s (Some v) = None /\ e = ZodError.
Proof.
  unfold z.parse. destruct (s (Some v)); [discriminate |].
  now intros [= <-].
Qed.

(** Destructs the chain of field parses of an accepted object. *)
Ltac fields H :=
  repeat match type of H with
         | match ?x with _ => _ end = Some _ =>
             let E := fresh "E" in
             destruct x eqn:E; [| discriminate H]
         end;
  injection H as <-.

(** ** What the contracts guarantee about accepted values *)

Lemma ClaimSetSchema_inv v cs :
  ClaimSetSchema v = Some cs ->
  exists o items,
    v = Some (JObj o)
    /\ lookup "topic" o = Some (JStr (ClaimSet.topic cs))
    /\ lookup "claims" o = Some (JArr items)
    /\ z.each ClaimSchema items = Some (ClaimSet.claims cs)
    /\ (3 <= length items)%nat.
Proof.
  intros H. apply object_inv in H as (o & -> & H). fields H. simpl.
  apply string_inv in E.
  apply check_inv in E0 as [E0 L].
  apply array_inv in E0 as (items & E0 & Each).
  exists o, items. repeat split; auto.
  apply Nat.leb_le in L. now rewrite (each_length _ _ _ Each) in L.
Qed.

Lemma ClaimSetSchema_min v cs :
  ClaimSetSchema v = Some cs -> (3 <= length (ClaimSet.claims cs))%nat.
Proof.
  intros H. apply ClaimSetSchema_inv in H as (o & items & _ & _ & _ & Each & L).
  now rewrite (each_length _ _ _ Each).
Qed.

Lemma DiscoverInputSchema_range v args :
  DiscoverInputSchema v = Some args ->
  5 <= DiscoverInput.max_claims args <= 40.
Proof.
  intros H. apply object_inv in H as (o & -> & H). fields H. simpl.
  apply default_inv in E2 as [[_ ->] | E2]; [lia |].
  apply check_inv in E2 as [E2 Hi].
  apply check_inv in E2 as [_ Lo]. lia.
Qed.

Lemma ConflictSchema_inv v c :
  ConflictSchema v = Some c ->
  exists o,
    v = Some (JObj o)
    /\ lookup "claim_a" o = Some (JStr (Conflict.claim_a c))
    /\ lookup "claim_b" o = Some (JStr (Conflict.claim_b c)).
Proof.
  intros H. apply object_inv in H as (o & -> & H). fields H. simpl.
  apply string_inv in E1, E2. eauto.
Qed.

Lemma SummarySchema_inv v s :
  SummarySchema v = Some s ->
  exists o q,
    v = Some (JObj o)
    /\ lookup "conflict_count" o = Some (JNum q)
    /\ q == inject_Z (Summary.conflict_count s)
    /\ 0 <= Summary.conflict_count s.
Proof.
  intros H. apply object_inv in H as (o & -> & H). fields H. simpl.
  apply check_inv in E as [E Pos]. apply Z.leb_le in Pos.
  unfold z.int, z.number in E.
  destruct (lookup "conflict_count" o) as [[| | q | | |] |] eqn:L;
    try discriminate.
  destruct (z.isInteger q) eqn:I; [| discriminate].
  injection E as <-.
  exists o, q.
  split; [reflexivity |]. split; [exact L |]. split; [| exact Pos].
  unfold z.isInteger in I. apply Qeq_bool_iff in I. now symmetry.
Qed.

Lemma ConflictReportSchema_inv v report :
  ConflictReportSchema v = Some report ->
  exists o entries,
    v = Some (JObj o)
    /\ lookup "topic" o = Some (JStr (ConflictReport.topic report))
    /\ lookup "conflicts" o = Some (JArr entries)
    /\ z.each ConflictSchema entries = Some (ConflictReport.conflicts report)
    /\ SummarySchema (lookup "summary" o) = Some (ConflictReport.summary report).
Proof.
  intros H. apply object_inv in H as (o & -> & H). fields H. simpl.
  apply string_inv in E.
  apply array_inv in E0 as (entries & E0 & Each).
  exists o, entries. auto.
Qed.

(** ** Truncation *)

Lemma slice0_firstn {A : Type} (l : list A) (n : Z) :
  0 <= n -> slice0 l n = firstn (Z.to_nat n) l.
Proof.
  intros Hn. unfold slice0.
  destruct (n <? 0) eqn:N; [apply Z.ltb_lt in N; lia |].
  destruct (Z.le_ge_cases n (Z.of_nat (length l))) as [Le | Ge].
  - now rewrite Z.min_l.
  - rewrite Z.min_r by assumption.
    rewrite Nat2Z.id, firstn_all.
    symmetry. apply firstn_all2. lia.
Qed.

(* ================================================================== *)
(** ** The generative client and the orchestrator, step by step *)

Section Pipeline.

Variable cfg : Config.
Variable rt : Runtime.
Variable env : Env.


(** Every call of the client sends exactly one request, whatever comes
    back. *)
Lemma openaiJSON_world instructions input w :
  snd (openaiJSON cfg rt env instructions input w)
  = mkWorld (log w ++ [openai_request cfg rt instructions input]) (clock_reads w).
Proof.
  unfold openaiJSON, bind, fetch.
  destruct (net env (log w) _) as [| res]; simpl; [reflexivity |].
  destruct (ok res); simpl.
  - unfold res_json, lift. destruct (text res) as [t |]; simpl; [| reflexivity].
    destruct (parse_text rt t); reflexivity.
  - unfold catch, res_text, lift. destruct (text res); reflexivity.
Qed.

Lemma stage1_throws args w e w1 :
  stage1_call cfg rt env args w = (Throw e, w1) ->
  discoverConflicts cfg rt env args w = (Throw e, w1).
Proof.
  unfold stage1_call, discoverConflicts. intros H.
  now apply bind_Throw.
Qed.

Lemma stage1_rejected args w raw1 w1 :
  stage1_call cfg rt env args w = (Return raw1, w1) ->
  ClaimSetSchema (Some raw1) = None ->
  discoverConflicts cfg rt env args w = (Throw ZodError, w1).
Proof.
  unfold stage1_call, discoverConflicts. intros H V.
  rewrite (bind_Return _ _ _ _ _ H).
  apply bind_Throw. unfold lift, z.parse. now rewrite V.
Qed.

Lemma stage2_throws args w raw1 w1 cs e w2 :
  stage1_call cfg rt env args w = (Return raw1, w1) ->
  ClaimSetSchema (Some raw1) = Some cs ->
  stage2_call cfg rt env args (ClaimSet.topic cs)
    (slice0 (ClaimSet.claims cs) (DiscoverInput.max_claims args)) w1
  = (Throw e, w2) ->
  discoverConflicts cfg rt env args w = (Throw e, w2).
Proof.
  unfold stage1_call, stage2_call, discoverConflicts.
  intros H V H2.
  rewrite (bind_Return _ _ _ _ _ H).
  rewrite (bind_Return _ _ w1 cs w1) by (unfold lift, z.parse; now rewrite V).
  now apply bind_Throw.
Qed.

Lemma stage2_rejected args w raw1 w1 cs raw2 w2 :
  stage1_call cfg rt env args w = (Return raw1, w1) ->
  ClaimSetSchema (Some raw1) = Some cs ->
  stage2_call cfg rt env args (ClaimSet.topic cs)
    (slice0 (ClaimSet.claims cs) (DiscoverInput.max_claims args)) w1
  = (Return raw2, w2) ->
  ConflictReportSchema (Some raw2) = None ->
  discoverConflicts cfg rt env args w = (Throw ZodError, w2).
Proof.
  unfold stage1_call, stage2_call, discoverConflicts.
  intros H V H2 V2.
  rewrite (bind_Return _ _ _ _ _ H).
  rewrite (bind_Return _ _ w1 cs w1) by (unfold lift, z.parse; now rewrite V).
  rewrite (bind_Return _ _ _ _ _ H2).
  apply bind_Throw. unfold lift, z.parse. now rewrite V2.
Qed.

Lemma both_stages_accepted args w raw1 w1 cs raw2 w2 report :
  stage1_call cfg rt env args w = (Return raw1, w1) ->
  ClaimSetSchema (Some raw1) = Some cs ->
  stage2_call cfg rt env args (ClaimSet.topic cs)
    (slice0 (ClaimSet.claims cs) (DiscoverInput.max_claims args)) w1
  = (Return raw2, w2) ->
  ConflictReportSchema (Some raw2) = Some report ->
  discoverConflicts cfg rt env args w
  = (Return (Discovery.mk (ConflictReport.topic report)
               (ConflictReport.conflicts report) (ConflictReport.summary report)
               (slice0 (ClaimSet.claims cs) (DiscoverInput.max_claims args))),
     w2).
Proof.
  unfold stage1_call, stage2_call, discoverConflicts.
  intros H V H2 V2.
  rewrite (bind_Return _ _ _ _ _ H).
  rewrite (bind_Return _ _ w1 cs w1) by (unfold lift, z.parse; now rewrite V).
  rewrite (bind_Return _ _ _ _ _ H2).
  rewrite (bind_Return _ _ w2 report w2) by (unfold lift, z.parse; now rewrite V2).
  reflexivity.
Qed.

(** A run that returns went through both calls and both validations. *)
Lemma discoverConflicts_inv args w result w2 :
  discoverConflicts cfg rt env args w = (Return result, w2) ->
  exists raw1 w1 cs raw2 report,
    stage1_call cfg rt env args w = (Return raw1, w1)
    /\ ClaimSetSchema (Some raw1) = Some cs
    /\ stage2_call cfg rt env args (ClaimSet.topic cs)
         (slice0 (ClaimSet.claims cs) (DiscoverInput.max_claims args)) w1
       = (Return raw2, w2)
    /\ ConflictReportSchema (Some raw2) = Some report
    /\ result
       = Discovery.mk (ConflictReport.topic report)
           (ConflictReport.conflicts report) (ConflictReport.summary report)
           (slice0 (ClaimSet.claims cs) (DiscoverInput.max_claims args)).
Proof.
  intros H. unfold discoverConflicts in H.
  apply bind_inv in H as (raw1 & w1 & H1 & H).
  apply bind_inv in H as (cs & w1' & V1 & H).
  apply bind_inv in H as (raw2 & w2' & H2 & H).
  apply bind_inv in H as (report & w2'' & V2 & H).
  unfold lift in V1, V2. unfold ret in H.
  injection V1 as V1 <-. injection V2 as V2 <-. injection H as <- <-.
  apply parse_Return in V1, V2.
  exists raw1, w1, cs, raw2, report. auto.
Qed.

Lemma stage1_world args w :
  snd (stage1_call cfg rt env args w) = mkWorld (log w ++ [stage1_request cfg rt args]) (clock_reads w).
Proof. apply openaiJSON_world. Qed.

Lemma stage2_world args topic claims w :
  snd (stage2_call cfg rt env args topic claims w)
  = mkWorld (log w ++ [stage2_request cfg rt args topic claims]) (clock_reads w).
Proof. apply openaiJSON_world. Qed.

(** Whatever the second call answers, a run whose first stage was
    accepted ends in the world the second call leaves. *)
Lemma world_after_stage2 args w raw1 w1 cs :
  stage1_call cfg rt env args w = (Return raw1, w1) ->
  ClaimSetSchema (Some raw1) = Some cs ->
  snd (discoverConflicts cfg rt env args w)
  = snd (stage2_call cfg rt env args (ClaimSet.topic cs)
           (slice0 (ClaimSet.claims cs) (DiscoverInput.max_claims args)) w1).
Proof.
  intros H V.
  destruct (stage2_call cfg rt env args (ClaimSet.topic cs) _ w1) as [[raw2 | e] w2] eqn:H2.
  - destruct (ConflictReportSchema (Some raw2)) as [report |] eqn:V2.
    + now rewrite (both_stages_accepted _ _ _ _ _ _ _ _ H V H2 V2).
    + now rewrite (stage2_rejected _ _ _ _ _ _ _ H V H2 V2).
  - now rewrite (stage2_throws _ _ _ _ _ _ _ H V H2).
Qed.

(** C3: once the stage-1 output passes [ClaimSetSchema], the claims put
    in the stage-2 payload and attached to the result are the first
    [max_claims] claims of the validated output, in order; there is at
    least one and at most [max_claims] of them. *)
Theorem stage2_input_is_prefix_truncation raw args w raw1 w1 cs :
  DiscoverInputSchema (Some raw) = Some args ->
  stage1_call cfg rt env args w = (Return raw1, w1) ->
  z.parse ClaimSetSchema raw1 = Return cs ->
  let claims :=
    firstn (Z.to_nat (DiscoverInput.max_claims args)) (ClaimSet.claims cs) in
  (1 <= length claims)%nat
  /\ Z.of_nat (length claims) <= DiscoverInput.max_claims args
  /\ log (snd (discoverConflicts cfg rt env args w))
     = (log w
        ++ [stage1_request cfg rt args;
            openai_request cfg rt
              (stage2_instructions (DiscoverInput.strict_no_sources args))
              (JSON_stringify rt
                 (JObj [("topic", JStr (ClaimSet.topic cs));
                        ("claims", JArr (map json_of_Claim claims))]))])%list
  /\ (forall result w2,
        discoverConflicts cfg rt env args w = (Return result, w2) ->
        Discovery.claims result = claims).
Proof.
  intros Hargs H1 V claims.
  apply DiscoverInputSchema_range in Hargs.
  apply parse_Return in V.
  assert (S0 : slice0 (ClaimSet.claims cs) (DiscoverInput.max_claims args) = claims)
    by (apply slice0_firstn; lia).
  pose proof (ClaimSetSchema_min _ _ V) as L.
  assert (Len : length claims
                = Nat.min (Z.to_nat (DiscoverInput.max_claims args))
                    (length (ClaimSet.claims cs)))
    by apply length_firstn.
  repeat split.
  - lia.
  - lia.
  - rewrite (world_after_stage2 _ _ _ _ _ H1 V), S0, stage2_world. simpl.
    pose proof (stage1_world args w) as W1. rewrite H1 in W1. simpl in W1.
    rewrite W1. simpl. now rewrite <- app_assoc.
  - intros result w2 R.
    apply discoverConflicts_inv in R as (r1 & w1' & cs' & r2 & rep & H1' & V' & _ & _ & ->).
    rewrite H1 in H1'. injection H1' as <- <-.
    rewrite V in V'. injection V' as <-.
    simpl. exact S0.
Qed.

(** C5: a failure of either generative call or of either validation makes
    the whole run throw that failure, and a run that returns carries a
    validated report together with the truncated validated claims:
    nothing partial is returned. *)
Theorem any_failure_aborts_run args w :
  (forall e w1,
      stage1_call cfg rt env args w = (Throw e, w1) ->
      fst (discoverConflicts cfg rt env args w) = Throw e)
  /\ (forall raw1 w1 e,
        stage1_call cfg rt env args w = (Return raw1, w1) ->
        z.parse ClaimSetSchema raw1 = Throw e ->
        fst (discoverConflicts cfg rt env args w) = Throw ZodError)
  /\ (forall raw1 w1 cs e w2,
        stage1_call cfg rt env args w = (Return raw1, w1) ->
        z.parse ClaimSetSchema raw1 = Return cs ->
        stage2_call cfg rt env args (ClaimSet.topic cs)
          (slice0 (ClaimSet.claims cs) (DiscoverInput.max_claims args)) w1
        = (Throw e, w2) ->
        fst (discoverConflicts cfg rt env args w) = Throw e)
  /\ (forall raw1 w1 cs raw2 w2 e,
        stage1_call cfg rt env args w = (Return raw1, w1) ->
        z.parse ClaimSetSchema raw1 = Return cs ->
        stage2_call cfg rt env args (ClaimSet.topic cs)
          (slice0 (ClaimSet.claims cs) (DiscoverInput.max_claims args)) w1
        = (Return raw2, w2) ->
        z.parse ConflictReportSchema raw2 = Throw e ->
        fst (discoverConflicts cfg rt env args w) = Throw ZodError)
  /\ (forall result,
        fst (discoverConflicts cfg rt env args w) = Return result ->
        exists raw1 w1 cs raw2 w2 report,
          stage1_call cfg rt env args w = (Return raw1, w1)
          /\ z.parse ClaimSetSchema raw1 = Return cs
          /\ stage2_call cfg rt env args (ClaimSet.topic cs)
               (slice0 (ClaimSet.claims cs) (DiscoverInput.max_claims args)) w1
             = (Return raw2, w2)
          /\ z.parse ConflictReportSchema raw2 = Return report
          /\ result
             = Discovery.mk (ConflictReport.topic report)
                 (ConflictReport.conflicts report)
                 (ConflictReport.summary report)
                 (slice0 (ClaimSet.claims cs) (DiscoverInput.max_claims args))).
Proof.
  repeat split.
  - intros e w1 H. now rewrite (stage1_throws _ _ _ _ H).
  - intros raw1 w1 e H V. apply parse_Throw in V as [V _].
    now rewrite (stage1_rejected _ _ _ _ H V).
  - intros raw1 w1 cs e w2 H V H2. apply parse_Return in V.
    now rewrite (stage2_throws _ _ _ _ _ _ _ H V H2).
  - intros raw1 w1 cs raw2 w2 e H V H2 V2.
    apply parse_Return in V. apply parse_Throw in V2 as [V2 _].
    now rewrite (stage2_rejected _ _ _ _ _ _ _ H V H2 V2).
  - intros result R.
    destruct (discoverConflicts cfg rt env args w) as [o w2] eqn:D. simpl in R. subst o.
    apply discoverConflicts_inv in D as (raw1 & w1 & cs & raw2 & report & H & V & H2 & V2 & ->).
    exists raw1, w1, cs, raw2, w2, report.
    repeat split; auto; now apply parse_Return.
Qed.

(** C6: a stage-1 response whose [claims] array has fewer than three
    entries is rejected by [ClaimSetSchema]; the run throws a [ZodError]
    having sent the stage-1 request and nothing else. *)
Theorem too_few_claims_abort_before_stage2 args w raw1 w1 items :
  stage1_call cfg rt env args w = (Return raw1, w1) ->
  get "claims" raw1 = Some (JArr items) ->
  (length items < 3)%nat ->
  z.parse ClaimSetSchema raw1 = Throw ZodError
  /\ discoverConflicts cfg rt env args w = (Throw ZodError, w1)
  /\ log (snd (discoverConflicts cfg rt env args w)) = (log w ++ [stage1_request cfg rt args])%list.
Proof.
  intros H G L.
  assert (V : ClaimSetSchema (Some raw1) = None).
  { destruct (ClaimSetSchema (Some raw1)) as [cs |] eqn:V; [| reflexivity].
    apply ClaimSetSchema_inv in V as (o & items' & Eo & _ & C & _ & L').
    injection Eo as ->. simpl in G. rewrite C in G. injection G as ->. lia. }
  pose proof (stage1_rejected _ _ _ _ H V) as D.
  repeat split.
  - unfold z.parse. now rewrite V.
  - exact D.
  - rewrite D. simpl.
    pose proof (stage1_world args w) as W1. rewrite H in W1. simpl in W1.
    now rewrite W1.
Qed.

(** C1, as the code has it: the [claim_a] and [claim_b] of every returned
    conflict are the strings the stage-2 output carries in the matching
    entry of its [conflicts] array; nothing relates them to the returned
    claims. *)
Theorem conflict_references_are_the_model_output args w result w2 :
  discoverConflicts cfg rt env args w = (Return result, w2) ->
  exists raw1 w1 cs raw2 entries,
    stage1_call cfg rt env args w = (Return raw1, w1)
    /\ z.parse ClaimSetSchema raw1 = Return cs
    /\ stage2_call cfg rt env args (ClaimSet.topic cs)
         (slice0 (ClaimSet.claims cs) (DiscoverInput.max_claims args)) w1
       = (Return raw2, w2)
    /\ get "conflicts" raw2 = Some (JArr entries)
    /\ Forall2
         (fun entry c =>
            get "claim_a" entry = Some (JStr (Conflict.claim_a c))
            /\ get "claim_b" entry = Some (JStr (Conflict.claim_b c)))
         entries (Discovery.conflicts result).
Proof.
  intros D.
  apply discoverConflicts_inv in D as (raw1 & w1 & cs & raw2 & report & H & V & H2 & V2 & ->).
  apply ConflictReportSchema_inv in V2 as (o & entries & Eo & _ & C & Each & _).
  injection Eo as ->.
  exists raw1, w1, cs, (JObj o), entries.
  repeat split; auto.
  - now apply parse_Return.
  - simpl. apply each_Forall2 in Each.
    eapply Forall2_impl; [| exact Each].
    intros entry c Hc. apply ConflictSchema_inv in Hc as (oc & Ec & A & B).
    injection Ec as ->. simpl. auto.
Qed.

(** C2, as the code has it: the returned [conflict_count] is the
    non-negative integer found in the [summary] of the stage-2 output; it
    is not computed from the [conflicts] array. *)
Theorem conflict_count_is_the_model_output args w result w2 :
  discoverConflicts cfg rt env args w = (Return result, w2) ->
  0 <= Summary.conflict_count (Discovery.summary result)
  /\ exists raw1 w1 cs raw2 summary q,
       stage1_call cfg rt env args w = (Return raw1, w1)
       /\ z.parse ClaimSetSchema raw1 = Return cs
       /\ stage2_call cfg rt env args (ClaimSet.topic cs)
            (slice0 (ClaimSet.claims cs) (DiscoverInput.max_claims args)) w1
          = (Return raw2, w2)
       /\ get "summary" raw2 = Some summary
       /\ get "conflict_count" summary = Some (JNum q)
       /\ q == inject_Z (Summary.conflict_count (Discovery.summary result)).
Proof.
  intros D.
  apply discoverConflicts_inv in D as (raw1 & w1 & cs & raw2 & report & H & V & H2 & V2 & ->).
  apply ConflictReportSchema_inv in V2 as (o & entries & Eo & _ & _ & _ & S).
  injection Eo as ->.
  apply SummarySchema_inv in S as (os & q & Es & Q & Eq & Pos).
  simpl. split; [exact Pos |].
  exists raw1, w1, cs, (JObj o), (JObj os), q.
  split; [exact H |]. split; [now apply parse_Return |].
  split; [exact H2 |]. split; [exact Es |]. split; [exact Q | exact Eq].
Qed.

(** C4, as the code has it: a reply that is not [ok] makes the client
    throw an [Error] whose message spells the status and the body (empty
    when the body cannot be read); an [ok] reply whose body, or whose
    [output_text], the JSON parser refuses makes it throw the parser's own
    [SyntaxError], to which the client adds nothing; the two are
    different exceptions; and every call sends one request only. *)
Theorem openaiJSON_failures instructions input w res :
  net env (log w) (openai_request cfg rt instructions input) = Resolved res ->
  (ok res = false ->
     fst (openaiJSON cfg rt env instructions input w)
     = Throw (Error ("OpenAI error " ++ string_of_Z (status res) ++ ": "
                     ++ match text res with
                        | Some t => t
                        | None => EmptyString
                        end)))
  /\ (forall t message,
        ok res = true -> text res = Some t ->
        JSON_parse rt t = inr message ->
        fst (openaiJSON cfg rt env instructions input w) = Throw (SyntaxError message))
  /\ (forall t data txt message,
        ok res = true -> text res = Some t ->
        JSON_parse rt t = inl data ->
        get "output_text" data = Some (JStr txt) ->
        JSON_parse rt txt = inr message ->
        fst (openaiJSON cfg rt env instructions input w) = Throw (SyntaxError message))
  /\ (forall message message', Error message <> SyntaxError message')
  /\ log (snd (openaiJSON cfg rt env instructions input w))
     = (log w ++ [openai_request cfg rt instructions input])%list.
Proof.
  intros N. repeat split.
  - intros K. unfold openaiJSON, bind, fetch. rewrite N, K. simpl.
    unfold catch, res_text, lift. now destruct (text res).
  - intros t message K T P.
    unfold openaiJSON, bind, fetch. rewrite N, K. simpl.
    unfold res_json, lift, parse_text. now rewrite T, P.
  - intros t data txt message K T P O P'.
    unfold openaiJSON, bind, fetch. rewrite N, K. simpl.
    unfold res_json, lift, parse_text. rewrite T, P, O.
    assert (Txt : or_else (Some (JStr txt)) (Some (JStr EmptyString))
                  = Some (JStr txt)).
    { unfold or_else. simpl.
      destruct (String.eqb txt EmptyString) eqn:Z; simpl; [| reflexivity].
      apply String.eqb_eq in Z. now subst txt. }
    rewrite Txt. unfold JSON_parse_value, parse_text. simpl. now rewrite P'.
  - discriminate.
  - now rewrite openaiJSON_world.
Qed.

End Pipeline.

(* ================================================================== *)
(** ** Prompt policy *)

Lemma append_EmptyString (s : string) : s ++ EmptyString = s.
Proof. induction s as [| c s IH]; simpl; [reflexivity | now rewrite IH]. Qed.

(** C7: with [strict_no_sources] both instruction strings contain the
    strong directive, without it both contain the weaker one, and the
    stage-1 string spells the cap [max_claims]. *)
Theorem anti_fabrication_directive_embedded (max_claims : Z) :
  contains "Do NOT fabricate citations, paper titles, authors, journals, or DOIs."
    (stage1_instructions max_claims true)
  /\ contains "Do NOT fabricate citations, paper titles, authors, journals, or DOIs."
       (stage2_instructions true)
  /\ contains "Do not fabricate citations." (stage1_instructions max_claims false)
  /\ contains "Do not fabricate citations." (stage2_instructions false)
  /\ (forall strict,
        contains ("Max claims: " ++ string_of_Z max_claims)
          (stage1_instructions max_claims strict)).
Proof.
  set (head1 :=
         join LF
           ["You enumerate conflicting scientific claims that exist in the literature or popular summaries.";
            "Do not reconcile disagreements. Do not average them.";
            "Each claim must be atomic and testable.";
            "Separate by paradigm, definition, and scope when relevant.";
            EmptyString]).
  set (head2 :=
         join LF
           ["You are a contradiction auditor.";
            "Given claims, identify conflicts that cannot both be true under the same scope and definition.";
            "If contradiction depends on scope/definition shifts, mark conflict_type accordingly.";
            "Prioritize conflicts that would mislead a researcher if cited without qualifiers.";
            EmptyString]).
  repeat split.
  - exists head1, (LF ++ "Max claims: " ++ string_of_Z max_claims). reflexivity.
  - exists head2, EmptyString. reflexivity.
  - exists head1, (LF ++ "Max claims: " ++ string_of_Z max_claims). reflexivity.
  - exists head2, EmptyString. reflexivity.
  - intros strict.
    exists (head1 ++ antiCitation strict ++ LF), EmptyString.
    destruct strict; simpl; now rewrite append_EmptyString.
Qed.

(* ================================================================== *)
(** ** Data contracts *)

Lemma lookup_add_other key k x o :
  k <> key -> lookup key ((k, x) :: o) = lookup key o.
Proof.
  intros N. simpl. destruct (String.eqb k key) eqn:E; [| reflexivity].
  apply String.eqb_eq in E. contradiction.
Qed.

Lemma each_map_ext {A : Type} (s : Schema A) (f : JSON -> JSON) items :
  (forall i, s (Some (f i)) = s (Some i)) ->
  z.each s (map f items) = z.each s items.
Proof.
  intros H. induction items as [| i rest IH]; simpl; [reflexivity |].
  now rewrite H, IH.
Qed.

Lemma ClaimSchema_add_field k x entry :
  ~ In k ClaimSchema_keys ->
  ClaimSchema (Some (add_field k x entry)) = ClaimSchema (Some entry).
Proof.
  intros N. destruct entry as [| | | | | o]; try reflexivity.
  unfold add_field, ClaimSchema, z.object.
  rewrite !lookup_add_other;
    try (intros ->; apply N; unfold ClaimSchema_keys; simpl; tauto).
  reflexivity.
Qed.

(* ================================================================== *)
(** ** Telemetry *)

Section Telemetry.

Variable cfg : Config.
Variable rt : Runtime.

Lemma trackEvent_returns env event properties w :
  fst (trackEvent cfg rt env event properties w) = Return tt.
Proof.
  unfold trackEvent.
  destruct (_ || _)%bool; [reflexivity |].
  unfold catch, bind, fetch.
  destruct (net env (log w) _); reflexivity.
Qed.

(** An event costs at most one request, sent once. *)
Lemma trackEvent_world env event properties w :
  snd (trackEvent cfg rt env event properties w) = w
  \/ snd (trackEvent cfg rt env event properties w)
     = mkWorld (log w ++ [posthog_request cfg rt event properties]) (clock_reads w).
Proof.
  unfold trackEvent.
  destruct (_ || _)%bool; [now left |]. right.
  unfold catch, bind, fetch.
  destruct (net env (log w) _); reflexivity.
Qed.

Lemma openaiJSON_agree env env' instructions input w :
  (forall history req,
      url req = openai_url -> net env' history req = net env history req) ->
  openaiJSON cfg rt env' instructions input w
  = openaiJSON cfg rt env instructions input w.
Proof.
  intros H. unfold openaiJSON, bind, fetch.
  now rewrite H by reflexivity.
Qed.

Lemma discoverConflicts_agree env env' args w :
  (forall history req,
      url req = openai_url -> net env' history req = net env history req) ->
  discoverConflicts cfg rt env' args w = discoverConflicts cfg rt env args w.
Proof.
  intros H. unfold discoverConflicts, bind.
  rewrite (openaiJSON_agree env env') by exact H.
  destruct (openaiJSON cfg rt env _ _ w) as [[raw1 | e] w1]; [| reflexivity].
  destruct (lift (z.parse ClaimSetSchema raw1) w1) as [[cs | e] w1']; [| reflexivity].
  now rewrite (openaiJSON_agree env env') by exact H.
Qed.

Lemma discover_conflicting_claims_result env args w :
  fst (discover_conflicting_claims cfg rt env args w)
  = omap report_ready
      (fst (discoverConflicts cfg rt env args
              (mkWorld (log w) (S (clock_reads w))))).
Proof.
  unfold discover_conflicting_claims, bind, Date_now. simpl.
  destruct (discoverConflicts cfg rt env args _) as [[result | e] w1];
    [| reflexivity].
  simpl.
  match goal with
  | |- context [trackEvent cfg rt env ?ev ?ps ?w2] =>
      pose proof (trackEvent_returns env ev ps w2) as T;
      destruct (trackEvent cfg rt env ev ps w2) as [[u | e] w3]
  end; simpl in T; [reflexivity | discriminate].
Qed.

(** C8: emitting an event never throws and sends at most one request;
    the tool answers exactly what the discovery run produced, and two
    networks that differ only in what the analytics endpoint does (and
    in their clocks) give the same answer. *)
Theorem telemetry_failures_are_swallowed env args w :
  (forall event properties w1,
      fst (trackEvent cfg rt env event properties w1) = Return tt
      /\ (snd (trackEvent cfg rt env event properties w1) = w1
          \/ snd (trackEvent cfg rt env event properties w1)
             = mkWorld (log w1 ++ [posthog_request cfg rt event properties])
                 (clock_reads w1)))
  /\ fst (discover_conflicting_claims cfg rt env args w)
     = omap report_ready
         (fst (discoverConflicts cfg rt env args
                 (mkWorld (log w) (S (clock_reads w)))))
  /\ (forall env',
        (forall history req,
            url req = openai_url -> net env' history req = net env history req) ->
        fst (discover_conflicting_claims cfg rt env' args w)
        = fst (discover_conflicting_claims cfg rt env args w)).
Proof.
  split; [| split].
  - intros event properties w1. split.
    + apply trackEvent_returns.
    + apply trackEvent_world.
  - apply discover_conflicting_claims_result.
  - intros env' H.
    rewrite !discover_conflicting_claims_result.
    now rewrite (discoverConflicts_agree env env') by exact H.
Qed.

End Telemetry.

(* ================================================================== *)
(** ** Topics *)

(** C10: in a run that returns, the topic put in the stage-2 payload is
    the [topic] of the validated stage-1 output and the returned topic is
    the [topic] of the validated stage-2 output; there are runs in which
    both differ from the topic of the request. *)
Theorem topics_come_from_model_output :
  (forall cfg rt env args w result w2,
      discoverConflicts cfg rt env args w = (Return result, w2) ->
      exists raw1 w1 cs raw2 report,
        stage1_call cfg rt env args w = (Return raw1, w1)
        /\ z.parse ClaimSetSchema raw1 = Return cs
        /\ get "topic" raw1 = Some (JStr (ClaimSet.topic cs))
        /\ stage2_call cfg rt env args (ClaimSet.topic cs)
             (slice0 (ClaimSet.claims cs) (DiscoverInput.max_claims args)) w1
           = (Return raw2, w2)
        /\ get "topic"
             (stage2_payload (ClaimSet.topic cs)
                (slice0 (ClaimSet.claims cs) (DiscoverInput.max_claims args)))
           = Some (JStr (ClaimSet.topic cs))
        /\ z.parse ConflictReportSchema raw2 = Return report
        /\ get "topic" raw2 = Some (JStr (ConflictReport.topic report))
        /\ Discovery.topic result = ConflictReport.topic report)
  /\ (exists cfg rt env args w result w2 raw1 w1 cs,
        discoverConflicts cfg rt env args w = (Return result, w2)
        /\ stage1_call cfg rt env args w = (Return raw1, w1)
        /\ z.parse ClaimSetSchema raw1 = Return cs
        /\ ClaimSet.topic cs <> DiscoverInput.topic args
        /\ Discovery.topic result <> DiscoverInput.topic args).
Proof.
  split.
  - intros cfg rt env args w result w2 D.
    apply discoverConflicts_inv in D
      as (raw1 & w1 & cs & raw2 & report & H & V & H2 & V2 & ->).
    exists raw1, w1, cs, raw2, report.
    pose proof V as V'. pose proof V2 as V2'.
    apply ClaimSetSchema_inv in V' as (o & items & Eo & T & _).
    apply ConflictReportSchema_inv in V2' as (o2 & entries & Eo2 & T2 & _).
    injection Eo as ->. injection Eo2 as ->.
    repeat split; auto; now apply parse_Return.
  - exists Scenario.config, Scenario.runtime,
      (Scenario.scripted
         [Scenario.success Scenario.nine_claims;
          Scenario.success Scenario.sound_report]),
      Scenario.args, Scenario.w0.
    do 5 eexists.
    split; [vm_compute; reflexivity |].
    split; [vm_compute; reflexivity |].
    split; [vm_compute; reflexivity |].
    split; vm_compute; discriminate.
Qed.

(* ================================================================== *)
(** ** The properties on concrete runs *)

Module Runs.
Import Scenario.

(** C1 as stated fails: with a cap of five, the returned conflict names
    [c9], which is none of the five returned claims. *)
Lemma conflict_may_name_a_cut_claim :
  exists result,
    fst (discoverConflicts config runtime net_dangling args w0) = Return result
    /\ exists c,
         In c (Discovery.conflicts result)
         /\ ~ exists k,
                In k (Discovery.claims result)
                /\ Claim.claim_id k = Conflict.claim_b c.
Proof.
  eexists. split; [vm_compute; reflexivity |].
  eexists. split; [left; reflexivity |].
  intros (k & K & E). simpl in K, E.
  repeat (destruct K as [<- | K]; [discriminate E |]).
  exact K.
Qed.

(** C2 as stated fails: the run returns a count of seven with an empty
    list of conflicts. *)
Lemma conflict_count_may_differ_from_length :
  exists result,
    fst (discoverConflicts config runtime net_miscounted args w0) = Return result
    /\ Summary.conflict_count (Discovery.summary result) = 7
    /\ length (Discovery.conflicts result) = 0%nat.
Proof.
  eexists. split; [vm_compute; reflexivity |]. split; reflexivity.
Qed.

(** C4 as stated fails: two successful replies with different bodies,
    neither of them JSON, end in the very same exception, so the
    exception does not carry the raw text. *)
Lemma parse_failure_does_not_carry_raw_text :
  "[" <> "[["
  /\ JSON_parse runtime "[" = inr "Unexpected end of JSON input"
  /\ JSON_parse runtime "[[" = inr "Unexpected end of JSON input"
  /\ fst (openaiJSON config runtime (scripted [raw_success "["])
            "instructions" "input" w0)
     = Throw (SyntaxError "Unexpected end of JSON input")
  /\ fst (openaiJSON config runtime (scripted [raw_success "[["])
            "instructions" "input" w0)
     = Throw (SyntaxError "Unexpected end of JSON input")
  /\ ~ (exists rawText : Exn -> string,
          forall txt e,
            txt = "[" \/ txt = "[[" ->
            fst (openaiJSON config runtime (scripted [raw_success txt])
                   "instructions" "input" w0)
            = Throw e ->
            rawText e = txt).
Proof.
  assert (One : fst (openaiJSON config runtime (scripted [raw_success "["])
                       "instructions" "input" w0)
                = Throw (SyntaxError "Unexpected end of JSON input"))
    by (vm_compute; reflexivity).
  assert (Two : fst (openaiJSON config runtime (scripted [raw_success "[["])
                       "instructions" "input" w0)
                = Throw (SyntaxError "Unexpected end of JSON input"))
    by (vm_compute; reflexivity).
  split; [discriminate |].
  split; [vm_compute; reflexivity |].
  split; [vm_compute; reflexivity |].
  split; [exact One |]. split; [exact Two |].
  intros (rawText & Carries).
  pose proof (Carries _ _ (or_introl eq_refl) One) as R1.
  pose proof (Carries _ _ (or_intror eq_refl) Two) as R2.
  rewrite R1 in R2. discriminate R2.
Qed.

Lemma conflict_references_witness :
  exists result w2,
    discoverConflicts config runtime net_sound args w0 = (Return result, w2)
    /\ exists raw1 w1 cs raw2 entries,
         stage1_call config runtime net_sound args w0 = (Return raw1, w1)
         /\ z.parse ClaimSetSchema raw1 = Return cs
         /\ stage2_call config runtime net_sound args (ClaimSet.topic cs)
              (slice0 (ClaimSet.claims cs) (DiscoverInput.max_claims args)) w1
            = (Return raw2, w2)
         /\ get "conflicts" raw2 = Some (JArr entries)
         /\ Forall2
              (fun entry c =>
                 get "claim_a" entry = Some (JStr (Conflict.claim_a c))
                 /\ get "claim_b" entry = Some (JStr (Conflict.claim_b c)))
              entries (Discovery.conflicts result).
Proof.
  eexists. eexists. split; [vm_compute; reflexivity |].
  apply (conflict_references_are_the_model_output config runtime net_sound args w0).
  vm_compute. reflexivity.
Defined.

Lemma conflict_count_witness :
  exists result w2,
    discoverConflicts config runtime net_miscounted args w0 = (Return result, w2)
    /\ 0 <= Summary.conflict_count (Discovery.summary result)
    /\ exists raw1 w1 cs raw2 summary q,
         stage1_call config runtime net_miscounted args w0 = (Return raw1, w1)
         /\ z.parse ClaimSetSchema raw1 = Return cs
         /\ stage2_call config runtime net_miscounted args (ClaimSet.topic cs)
              (slice0 (ClaimSet.claims cs) (DiscoverInput.max_claims args)) w1
            = (Return raw2, w2)
         /\ get "summary" raw2 = Some summary
         /\ get "conflict_count" summary = Some (JNum q)
         /\ q == inject_Z (Summary.conflict_count (Discovery.summary result)).
Proof.
  eexists. eexists. split; [vm_compute; reflexivity |].
  apply (conflict_count_is_the_model_output config runtime net_miscounted args w0).
  vm_compute. reflexivity.
Defined.

Lemma prefix_truncation_witness :
  DiscoverInputSchema (Some raw_args) = Some args
  /\ exists raw1 w1 cs,
       stage1_call config runtime net_sound args w0 = (Return raw1, w1)
       /\ z.parse ClaimSetSchema raw1 = Return cs
       /\ length (ClaimSet.claims cs) = 9%nat
       /\ let claims := firstn 5 (ClaimSet.claims cs) in
          (1 <= length claims)%nat
          /\ Z.of_nat (length claims) <= 5
          /\ log (snd (discoverConflicts config runtime net_sound args w0))
             = (log w0
                ++ [stage1_request config runtime args;
                    openai_request config runtime
                      (stage2_instructions (DiscoverInput.strict_no_sources args))
                      (JSON_stringify runtime
                         (JObj [("topic", JStr (ClaimSet.topic cs));
                                ("claims", JArr (map json_of_Claim claims))]))])%list
          /\ (forall result w2,
                discoverConflicts config runtime net_sound args w0
                = (Return result, w2) ->
                Discovery.claims result = claims).
Proof.
  split; [vm_compute; reflexivity |].
  do 3 eexists.
  split; [vm_compute; reflexivity |].
  split; [vm_compute; reflexivity |].
  split; [reflexivity |].
  eapply (stage2_input_is_prefix_truncation config runtime net_sound raw_args args w0);
    vm_compute; reflexivity.
Defined.

Lemma openaiJSON_failures_witness :
  fst (openaiJSON config runtime (scripted [failure 500 "boom"])
         "instructions" "input" w0)
  = Throw (Error "OpenAI error 500: boom")
  /\ fst (openaiJSON config runtime (scripted [raw_success "not json"])
            "instructions" "input" w0)
     = Throw (SyntaxError "Unexpected end of JSON input").
Proof.
  split.
  - apply (openaiJSON_failures config runtime (scripted [failure 500 "boom"])
             "instructions" "input" w0 (mkResponse false 500 (Some "boom")));
      reflexivity.
  - apply (openaiJSON_failures config runtime (scripted [raw_success "not json"])
             "instructions" "input" w0 (mkResponse true 200 (Some "not json")))
      with (t := "not json");
      vm_compute; reflexivity.
Defined.

Lemma stage2_failure_aborts_witness :
  exists raw1 w1 cs w2,
    stage1_call config runtime net_stage2_down args w0 = (Return raw1, w1)
    /\ z.parse ClaimSetSchema raw1 = Return cs
    /\ stage2_call config runtime net_stage2_down args (ClaimSet.topic cs)
         (slice0 (ClaimSet.claims cs) (DiscoverInput.max_claims args)) w1
       = (Throw (Error "OpenAI error 500: boom"), w2)
    /\ fst (discoverConflicts config runtime net_stage2_down args w0)
       = Throw (Error "OpenAI error 500: boom").
Proof.
  do 4 eexists.
  split; [vm_compute; reflexivity |].
  split; [vm_compute; reflexivity |].
  split; [vm_compute; reflexivity |].
  destruct (any_failure_aborts_run config runtime net_stage2_down args w0)
    as (_ & _ & Stage2 & _).
  eapply Stage2; vm_compute; reflexivity.
Defined.

Lemma too_few_claims_witness :
  exists w1,
    stage1_call config runtime net_two_claims args w0 = (Return two_claims, w1)
    /\ z.parse ClaimSetSchema two_claims = Throw ZodError
    /\ discoverConflicts config runtime net_two_claims args w0 = (Throw ZodError, w1)
    /\ log (snd (discoverConflicts config runtime net_two_claims args w0))
       = (log w0 ++ [stage1_request config runtime args])%list.
Proof.
  eexists. split; [vm_compute; reflexivity |].
  apply (too_few_claims_abort_before_stage2 config runtime net_two_claims args w0
           two_claims _ (map claim ["c1"; "c2"])).
  - vm_compute. reflexivity.
  - reflexivity.
  - simpl. lia.
Defined.

Lemma telemetry_witness :
  fst (discover_conflicting_claims config runtime (analytics_down net_sound) args w0)
  = fst (discover_conflicting_claims config runtime net_sound args w0).
Proof.
  destruct (telemetry_failures_are_swallowed config runtime net_sound args w0)
    as (_ & _ & Same).
  apply Same. intros history req U. simpl. now rewrite U.
Defined.

Lemma topics_witness :
  exists result w2,
    discoverConflicts config runtime net_sound args w0 = (Return result, w2)
    /\ Discovery.topic result = "caffeine"
    /\ exists raw1 w1 cs raw2 report,
         stage1_call config runtime net_sound args w0 = (Return raw1, w1)
         /\ z.parse ClaimSetSchema raw1 = Return cs
         /\ get "topic" raw1 = Some (JStr (ClaimSet.topic cs))
         /\ stage2_call config runtime net_sound args (ClaimSet.topic cs)
              (slice0 (ClaimSet.claims cs) (DiscoverInput.max_claims args)) w1
            = (Return raw2, w2)
         /\ get "topic"
              (stage2_payload (ClaimSet.topic cs)
                 (slice0 (ClaimSet.claims cs) (DiscoverInput.max_claims args)))
            = Some (JStr (ClaimSet.topic cs))
         /\ z.parse ConflictReportSchema raw2 = Return report
         /\ get "topic" raw2 = Some (JStr (ConflictReport.topic report))
         /\ Discovery.topic result = ConflictReport.topic report.
Proof.
  eexists. eexists. split; [vm_compute; reflexivity |].
  split; [reflexivity |].
  apply (proj1 topics_come_from_model_output config runtime net_sound args w0).
  vm_compute. reflexivity.
Defined.

End Runs.

(* ================================================================== *)
(** * Further properties of the contracts *)

Lemma each_string_map (l : list string) : z.each z.string (map JStr l) = Some l.
Proof.
  induction l as [| s l IH]; simpl; [reflexivity | now rewrite IH].
Qed.

Lemma unit_interval_inv v q :
  z.max 1 (z.min 0 z.number) v = Some q ->
  v = Some (JNum q) /\ Qle_bool 0 q = true /\ Qle_bool q 1 = true.
Proof.
  unfold z.max, z.min. intros H.
  apply check_inv in H as [H Hi]. apply check_inv in H as [H Lo].
  unfold z.number in H. destruct v as [[| | x | | |] |]; try discriminate.
  injection H as ->. auto.
Qed.

Lemma ClaimSchema_confidence v c :
  ClaimSchema v = Some c ->
  Qle_bool 0 (Claim.confidence c) = true /\ Qle_bool (Claim.confidence c) 1 = true.
Proof.
  intros H. apply object_inv in H as (o & -> & H). fields H. simpl.
  apply unit_interval_inv in E7 as (_ & Lo & Hi). auto.
Qed.

Lemma ConflictSchema_severity v c :
  ConflictSchema v = Some c ->
  Qle_bool 0 (Conflict.severity c) = true /\ Qle_bool (Conflict.severity c) 1 = true.
Proof.
  intros H. apply object_inv in H as (o & -> & H). fields H. simpl.
  apply unit_interval_inv in E5 as (_ & Lo & Hi). auto.
Qed.

Lemma json_of_Claim_accepted c :
  Qle_bool 0 (Claim.confidence c) = true ->
  Qle_bool (Claim.confidence c) 1 = true ->
  ClaimSchema (Some (json_of_Claim c)) = Some c.
Proof.
  destruct c as [id a d p v qs dn eh q why]. simpl. intros Lo Hi.
  unfold ClaimSchema, json_of_Claim, z.object. simpl Claim.claim_id.
  destruct p, v, dn, eh, why; simpl;
    unfold z.max, z.min, z.check, z.number, z.array;
    rewrite ?each_string_map, ?Lo, ?Hi; reflexivity.
Qed.

Lemma each_all {A : Type} (s : Schema A) (P : A -> Prop) items l :
  z.each s items = Some l ->
  (forall i a, s (Some i) = Some a -> P a) ->
  Forall P l.
Proof.
  intros Each H. apply each_Forall2 in Each.
  induction Each as [| i a items l Hia _ IH]; constructor; eauto.
Qed.

Lemma each_rejects {A : Type} (s : Schema A) items i :
  In i items -> s (Some i) = None -> z.each s items = None.
Proof.
  induction items as [| j rest IH]; simpl; [contradiction |].
  intros [-> | Hin] N.
  - now rewrite N.
  - destruct (s (Some j)); [| reflexivity]. now rewrite (IH Hin N).
Qed.

Lemma each_json_of_Claim (l : list Claim.t) :
  Forall (fun c => Qle_bool 0 (Claim.confidence c) = true
                   /\ Qle_bool (Claim.confidence c) 1 = true) l ->
  z.each ClaimSchema (map json_of_Claim l) = Some l.
Proof.
  induction 1 as [| c l [Lo Hi] _ IH]; [reflexivity |].
  cbn [map z.each]. rewrite (json_of_Claim_accepted c Lo Hi), IH. reflexivity.
Qed.

Lemma slice0_prefix {A : Type} (l : list A) (n : Z) :
  exists rest, l = (slice0 l n ++ rest)%list.
Proof.
  unfold slice0. eexists. symmetry. apply firstn_skipn.
Qed.

Lemma slice0_In {A : Type} (l : list A) (n : Z) x :
  In x (slice0 l n) -> In x l.
Proof.
  destruct (slice0_prefix l n) as [rest E]. intros H.
  rewrite E. apply in_or_app. now left.
Qed.

Lemma ClaimSetSchema_confidences v cs :
  ClaimSetSchema v = Some cs ->
  Forall (fun c => Qle_bool 0 (Claim.confidence c) = true
                   /\ Qle_bool (Claim.confidence c) 1 = true)
    (ClaimSet.claims cs).
Proof.
  intros H. apply ClaimSetSchema_inv in H as (o & items & _ & _ & _ & Each & _).
  eapply each_all; [exact Each |].
  intros i a Hia. now apply ClaimSchema_confidence in Hia.
Qed.

(** A property that [ClaimSchema] does not name is ignored: adding one
    to an entry changes neither the decision nor the parsed claim; every
    well-formed claim object stays accepted with such a property added;
    and a claim set whose entries each carry one parses as the set
    without them. *)
Theorem unknown_claim_fields_are_ignored k x :
  ~ In k ClaimSchema_keys ->
  (forall entry,
      ClaimSchema (Some (add_field k x entry)) = ClaimSchema (Some entry))
  /\ (forall c,
        Qle_bool 0 (Claim.confidence c) = true ->
        Qle_bool (Claim.confidence c) 1 = true ->
        ClaimSchema (Some (add_field k x (json_of_Claim c))) = Some c)
  /\ (forall o o' entries,
        lookup "topic" o' = lookup "topic" o ->
        lookup "claims" o = Some (JArr entries) ->
        lookup "claims" o' = Some (JArr (map (add_field k x) entries)) ->
        ClaimSetSchema (Some (JObj o')) = ClaimSetSchema (Some (JObj o))).
Proof.
  intros N. split; [| split].
  - intros entry. now apply ClaimSchema_add_field.
  - intros c Lo Hi. rewrite (ClaimSchema_add_field k x _ N).
    now apply json_of_Claim_accepted.
  - intros o o' entries T C C'.
    unfold ClaimSetSchema, z.object. rewrite T, C, C'.
    unfold z.min_items, z.check, z.array.
    rewrite (each_map_ext ClaimSchema (add_field k x) entries)
      by (intros i; now apply ClaimSchema_add_field).
    reflexivity.
Qed.

(** A claim that passed [ClaimSchema], written back as the object zod
    returned, passes again and parses to itself: what stage 2 is sent
    re-validates. *)
Theorem validated_claim_revalidates v c :
  ClaimSchema v = Some c ->
  ClaimSchema (Some (json_of_Claim c)) = Some c.
Proof.
  intros H. apply ClaimSchema_confidence in H as [Lo Hi].
  now apply json_of_Claim_accepted.
Qed.

(** The claims of an accepted claim set are its entries parsed one by
    one, in order, none dropped; and a single entry that [ClaimSchema]
    refuses makes the whole set refused. *)
Theorem claim_set_parses_entrywise o entries :
  lookup "claims" o = Some (JArr entries) ->
  (forall cs,
      ClaimSetSchema (Some (JObj o)) = Some cs ->
      Forall2 (fun entry c => ClaimSchema (Some entry) = Some c)
        entries (ClaimSet.claims cs))
  /\ (forall entry,
        In entry entries ->
        ClaimSchema (Some entry) = None ->
        z.parse ClaimSetSchema (JObj o) = Throw ZodError).
Proof.
  intros C. split.
  - intros cs H.
    apply ClaimSetSchema_inv in H as (o' & items & Eo & _ & C' & Each & _).
    injection Eo as <-. rewrite C in C'. injection C' as <-.
    now apply each_Forall2.
  - intros entry Hin N. unfold z.parse.
    destruct (ClaimSetSchema (Some (JObj o))) as [cs |] eqn:H; [| reflexivity].
    apply ClaimSetSchema_inv in H as (o' & items & Eo & _ & C' & Each & _).
    injection Eo as <-. rewrite C in C'. injection C' as <-.
    rewrite (each_rejects _ _ _ Hin N) in Each. discriminate.
Qed.

(** Arguments accepted by [DiscoverInputSchema] have a topic whose
    [length], counted in UTF-16 code units, is at least two, and a cap
    between 5 and 40; every absent optional argument takes its default:
    no domain, depth [academic], cap 18, strict mode on. *)
Theorem accepted_arguments raw args :
  DiscoverInputSchema (Some raw) = Some args ->
  get "topic" raw = Some (JStr (DiscoverInput.topic args))
  /\ (2 <= utf16_length (DiscoverInput.topic args))%nat
  /\ 5 <= DiscoverInput.max_claims args <= 40
  /\ (get "domain" raw = None -> DiscoverInput.domain args = None)
  /\ (get "depth" raw = None -> DiscoverInput.depth args = academic)
  /\ (get "max_claims" raw = None -> DiscoverInput.max_claims args = 18)
  /\ (get "strict_no_sources" raw = None ->
      DiscoverInput.strict_no_sources args = true).
Proof.
  intros H. pose proof (DiscoverInputSchema_range _ _ H) as R.
  apply object_inv in H as (o & Eo & H). injection Eo as ->.
  fields H. simpl.
  apply check_inv in E as [E L]. apply string_inv in E. apply Nat.leb_le in L.
  split; [exact E |]. split; [exact L |]. split; [exact R |].
  split; [| split; [| split]].
  - intros N. rewrite N in E0. now injection E0 as <-.
  - intros N. rewrite N in E1. now injection E1 as <-.
  - intros N. rewrite N in E2. now injection E2 as <-.
  - intros N. rewrite N in E3. now injection E3 as <-.
Qed.

(** [AttributionInputSchema] accepts exactly the objects whose
    [found_via] is one of the five listed strings, and returns that
    string. *)
Theorem accepted_attribution raw found_via :
  AttributionInputSchema (Some raw) = Some found_via
  <-> get "found_via" raw = Some (JStr found_via)
      /\ In found_via ["directory"; "chatgpt_suggested"; "link"; "friend"; "other"].
Proof.
  split.
  - intros H. apply object_inv in H as (o & Eo & H). injection Eo as ->.
    fields H. simpl. unfold z.enum in E.
    destruct (lookup "found_via" o) as [[| | | given | |] |] eqn:G;
      try discriminate E.
    cbn [z.assoc] in E.
    repeat match type of E with
           | (if String.eqb ?k given then _ else _) = Some _ =>
               let K := fresh "K" in
               destruct (String.eqb_spec k given) as [K | K];
               [injection E as <-; subst given; simpl; tauto |]
           end.
    discriminate E.
  - intros [G Hin]. destruct raw as [| | | | | o]; try discriminate.
    simpl in G. unfold AttributionInputSchema, z.object, z.enum. rewrite G.
    simpl in Hin.
    repeat (destruct Hin as [<- | Hin]; [reflexivity |]). contradiction.
Qed.

(* ================================================================== *)
(** * Further properties of the generative client *)

Lemma split_at_colon (s1 s2 b1 b2 : string) :
  free_of ":" s1 -> free_of ":" s2 ->
  s1 ++ ": " ++ b1 = s2 ++ ": " ++ b2 ->
  s1 = s2 /\ b1 = b2.
Proof.
  revert s2. induction s1 as [| c s1 IH]; intros [| c2 s2] F1 F2 H; simpl in *.
  - injection H as H. auto.
  - injection H as C _. destruct F2 as [N _]. now symmetry in C.
  - injection H as C _. destruct F1 as [N _]. contradiction.
  - injection H as -> H. destruct F1 as [_ F1], F2 as [_ F2].
    destruct (IH s2 F1 F2 H) as [-> ->]. auto.
Qed.

Lemma digits_free_of_colon (d : Decimal.uint) :
  free_of ":" (NilEmpty.string_of_uint d).
Proof.
  induction d; simpl; auto; split; auto; discriminate.
Qed.

Lemma string_of_Z_free_of_colon (n : Z) : free_of ":" (string_of_Z n).
Proof.
  unfold string_of_Z, NilZero.string_of_int, NilZero.string_of_uint.
  destruct (Z.to_int n) as [d | d]; destruct d;
    try (simpl; repeat split; try discriminate; apply digits_free_of_colon).
Qed.

Lemma to_int_not_nil (n : Z) :
  Z.to_int n <> Decimal.Pos Decimal.Nil /\ Z.to_int n <> Decimal.Neg Decimal.Nil.
Proof.
  destruct n as [| p | p]; simpl; split; try discriminate;
    intros [= H]; now apply (Unsigned.to_uint_nonnil p).
Qed.

Lemma string_of_Z_inj (n m : Z) : string_of_Z n = string_of_Z m -> n = m.
Proof.
  unfold string_of_Z. intros H.
  apply DecimalZ.to_int_inj.
  destruct (to_int_not_nil n) as [Pn Nn], (to_int_not_nil m) as [Pm Nm].
  pose proof (NilZero.isi _ Pn Nn) as In.
  pose proof (NilZero.isi _ Pm Nm) as Im.
  rewrite H in In. rewrite In in Im. now injection Im.
Qed.

Section Client.

Variable cfg : Config.
Variable rt : Runtime.

(** A reply that is [ok], whose body parses and whose [output_text] is a
    string that parses, makes the client return the value parsed from
    that string. *)
Theorem openaiJSON_returns_parsed_output env instructions input w res t data txt v :
  net env (log w) (openai_request cfg rt instructions input) = Resolved res ->
  ok res = true ->
  text res = Some t ->
  JSON_parse rt t = inl data ->
  get "output_text" data = Some (JStr txt) ->
  JSON_parse rt txt = inl v ->
  openaiJSON cfg rt env instructions input w
  = (Return v,
     mkWorld (log w ++ [openai_request cfg rt instructions input]) (clock_reads w)).
Proof.
  intros N K T P O P'.
  unfold openaiJSON, bind, fetch. rewrite N, K. simpl.
  unfold res_json, lift, parse_text. rewrite T, P, O.
  assert (Txt : or_else (Some (JStr txt)) (Some (JStr EmptyString))
                = Some (JStr txt)).
  { unfold or_else. simpl.
    destruct (String.eqb txt EmptyString) eqn:Z; simpl; [| reflexivity].
    apply String.eqb_eq in Z. now subst txt. }
  rewrite Txt. unfold JSON_parse_value, parse_text. simpl. now rewrite P'.
Qed.

(** An [ok] reply without usable output text is never returned as it
    is: when [output_text] is absent or falsy ([null], [false], [0], the
    empty string) the client parses the empty string; when it is an
    object the client parses the text [[object Object]], unless the
    object owns a [toString] property, in which case converting it to a
    string throws a [TypeError]. *)
Theorem openaiJSON_without_output_text env instructions input w res t data :
  net env (log w) (openai_request cfg rt instructions input) = Resolved res ->
  ok res = true ->
  text res = Some t ->
  JSON_parse rt t = inl data ->
  (truthy (get "output_text" data) = false ->
   fst (openaiJSON cfg rt env instructions input w) = parse_text rt EmptyString)
  /\ (forall o,
        get "output_text" data = Some (JObj o) ->
        lookup "toString" o = None ->
        fst (openaiJSON cfg rt env instructions input w)
        = parse_text rt "[object Object]")
  /\ (forall o x,
        get "output_text" data = Some (JObj o) ->
        lookup "toString" o = Some x ->
        fst (openaiJSON cfg rt env instructions input w) = Throw TypeError).
Proof.
  intros N K T P. split; [| split].
  - intros F. unfold openaiJSON, bind, fetch. rewrite N, K. simpl.
    unfold res_json, lift. rewrite T. unfold parse_text at 1. rewrite P.
    unfold or_else. rewrite F. reflexivity.
  - intros o O S. unfold openaiJSON, bind, fetch. rewrite N, K. simpl.
    unfold res_json, lift. rewrite T. unfold parse_text at 1. rewrite P, O.
    unfold or_else, JSON_parse_value. simpl. now rewrite S.
  - intros o x O S. unfold openaiJSON, bind, fetch. rewrite N, K. simpl.
    unfold res_json, lift. rewrite T. unfold parse_text at 1. rewrite P, O.
    unfold or_else, JSON_parse_value. simpl. now rewrite S.
Qed.

(** The message of the [Error] thrown for a reply that is not [ok]
    determines the status and the body: two such replies that end in the
    same exception have the same status and the same body text. *)
Theorem upstream_error_identifies_reply env env' instructions input w w' res res' b b' :
  net env (log w) (openai_request cfg rt instructions input) = Resolved res ->
  net env' (log w') (openai_request cfg rt instructions input) = Resolved res' ->
  ok res = false -> ok res' = false ->
  text res = Some b -> text res' = Some b' ->
  fst (openaiJSON cfg rt env instructions input w)
  = fst (openaiJSON cfg rt env' instructions input w') ->
  status res = status res' /\ b = b'.
Proof.
  intros N N' K K' T T' Same.
  unfold openaiJSON, bind, fetch in Same.
  rewrite N, N', K, K' in Same. simpl in Same.
  unfold catch, res_text, lift in Same. rewrite T, T' in Same. simpl in Same.
  injection Same as Same.
  apply split_at_colon in Same as [S ->];
    try apply string_of_Z_free_of_colon.
  split; [now apply string_of_Z_inj | reflexivity].
Qed.

End Client.

(* ================================================================== *)
(** * Further properties of the orchestrator *)

Section Orchestrator.

Variable cfg : Config.
Variable rt : Runtime.
Variable env : Env.

(** Every score a run returns lies in the unit interval: the confidence
    of each returned claim and the severity of each returned conflict. *)
Theorem returned_scores_in_unit_interval args w result w2 :
  discoverConflicts cfg rt env args w = (Return result, w2) ->
  Forall (fun c => (0 <= Claim.confidence c)%Q /\ (Claim.confidence c <= 1)%Q)
    (Discovery.claims result)
  /\ Forall (fun k => (0 <= Conflict.severity k)%Q /\ (Conflict.severity k <= 1)%Q)
       (Discovery.conflicts result).
Proof.
  intros D.
  apply discoverConflicts_inv in D
    as (raw1 & w1 & cs & raw2 & report & _ & V & _ & V2 & ->).
  simpl. split.
  - apply ClaimSetSchema_confidences in V.
    rewrite Forall_forall in *. intros c Hin.
    apply slice0_In in Hin. destruct (V c Hin) as [Lo Hi].
    split; now apply Qle_bool_iff.
  - apply ConflictReportSchema_inv in V2 as (o & entries & _ & _ & _ & Each & _).
    eapply each_all; [exact Each |].
    intros i k Hk. apply ConflictSchema_severity in Hk as [Lo Hi].
    split; now apply Qle_bool_iff.
Qed.

(** Whatever [max_claims] is, even outside the range the tool accepts,
    the returned claims are a prefix of the validated stage-1 claims:
    truncation only ever cuts the tail. *)
Theorem returned_claims_are_a_prefix args w result w2 :
  discoverConflicts cfg rt env args w = (Return result, w2) ->
  exists raw1 w1 cs rest,
    stage1_call cfg rt env args w = (Return raw1, w1)
    /\ z.parse ClaimSetSchema raw1 = Return cs
    /\ ClaimSet.claims cs = (Discovery.claims result ++ rest)%list.
Proof.
  intros D.
  apply discoverConflicts_inv in D
    as (raw1 & w1 & cs & raw2 & report & H & V & _ & _ & ->).
  destruct (slice0_prefix (ClaimSet.claims cs) (DiscoverInput.max_claims args))
    as [rest E].
  exists raw1, w1, cs, rest. simpl.
  repeat split; auto. now apply parse_Return.
Qed.

(** For accepted arguments the number of returned claims is the smaller
    of the cap and the number of validated claims, hence at least three;
    when the upstream kept to the cap nothing is cut. *)
Theorem returned_claims_count raw args w result w2 :
  DiscoverInputSchema (Some raw) = Some args ->
  discoverConflicts cfg rt env args w = (Return result, w2) ->
  exists raw1 w1 cs,
    stage1_call cfg rt env args w = (Return raw1, w1)
    /\ z.parse ClaimSetSchema raw1 = Return cs
    /\ length (Discovery.claims result)
       = Nat.min (Z.to_nat (DiscoverInput.max_claims args))
           (length (ClaimSet.claims cs))
    /\ (3 <= length (Discovery.claims result))%nat
    /\ (Z.of_nat (length (ClaimSet.claims cs)) <= DiscoverInput.max_claims args ->
        Discovery.claims result = ClaimSet.claims cs).
Proof.
  intros Hargs D. apply DiscoverInputSchema_range in Hargs.
  apply discoverConflicts_inv in D
    as (raw1 & w1 & cs & raw2 & report & H & V & _ & _ & ->).
  exists raw1, w1, cs. simpl.
  pose proof (ClaimSetSchema_min _ _ V) as L.
  rewrite slice0_firstn by lia.
  split; [exact H |]. split; [now apply parse_Return |].
  split; [apply length_firstn |].
  split; [rewrite length_firstn; lia |].
  intros Le. apply firstn_all2. lia.
Qed.

(** For accepted arguments the payload handed to stage 2 is itself a
    valid claim set: it passes [ClaimSetSchema] and parses to the
    stage-1 topic with the truncated claims. *)
Theorem stage2_payload_is_a_claim_set raw args raw1 cs :
  DiscoverInputSchema (Some raw) = Some args ->
  z.parse ClaimSetSchema raw1 = Return cs ->
  z.parse ClaimSetSchema
    (stage2_payload (ClaimSet.topic cs)
       (slice0 (ClaimSet.claims cs) (DiscoverInput.max_claims args)))
  = Return (ClaimSet.mk (ClaimSet.topic cs)
              (slice0 (ClaimSet.claims cs) (DiscoverInput.max_claims args))).
Proof.
  intros Hargs V. apply DiscoverInputSchema_range in Hargs.
  apply parse_Return in V.
  pose proof (ClaimSetSchema_min _ _ V) as L.
  pose proof (ClaimSetSchema_confidences _ _ V) as R.
  set (kept := slice0 (ClaimSet.claims cs) (DiscoverInput.max_claims args)).
  assert (Rk : Forall (fun c => Qle_bool 0 (Claim.confidence c) = true
                                /\ Qle_bool (Claim.confidence c) 1 = true) kept).
  { rewrite Forall_forall in *. intros c Hin. apply R.
    now apply slice0_In in Hin. }
  assert (Lk : (3 <= length kept)%nat).
  { unfold kept. rewrite slice0_firstn, length_firstn by lia. lia. }
  unfold z.parse, ClaimSetSchema, z.object, stage2_payload.
  cbn [lookup String.eqb Ascii.eqb Bool.eqb z.string].
  unfold z.min_items, z.check, z.array.
  rewrite (each_json_of_Claim kept Rk).
  apply Nat.leb_le in Lk. now rewrite Lk.
Qed.

(** A run sends one or two requests and nothing else: each goes to the
    OpenAI endpoint by POST with the bearer credential, and the clock is
    not read. *)
Theorem run_sends_at_most_two_requests args w :
  exists sent,
    snd (discoverConflicts cfg rt env args w)
    = mkWorld (log w ++ sent) (clock_reads w)
    /\ (1 <= length sent <= 2)%nat
    /\ Forall (fun r =>
                 url r = openai_url
                 /\ method r = "POST"
                 /\ In ("Authorization", "Bearer " ++ OPENAI_API_KEY cfg)
                      (headers r))
         sent.
Proof.
  pose proof (stage1_world cfg rt env args w) as W1.
  assert (Shape : forall i inp,
             url (openai_request cfg rt i inp) = openai_url
             /\ method (openai_request cfg rt i inp) = "POST"
             /\ In ("Authorization", "Bearer " ++ OPENAI_API_KEY cfg)
                  (headers (openai_request cfg rt i inp))).
  { intros i inp. simpl. auto. }
  destruct (stage1_call cfg rt env args w) as [[raw1 | e] w1] eqn:H1;
    simpl in W1; subst w1.
  - destruct (ClaimSetSchema (Some raw1)) as [cs |] eqn:V.
    + exists [stage1_request cfg rt args;
              stage2_request cfg rt args (ClaimSet.topic cs)
                (slice0 (ClaimSet.claims cs) (DiscoverInput.max_claims args))].
      rewrite (world_after_stage2 _ _ _ _ _ _ _ _ H1 V), stage2_world. simpl.
      rewrite <- app_assoc. simpl.
      repeat split; auto; repeat constructor; apply Shape.
    + exists [stage1_request cfg rt args].
      rewrite (stage1_rejected _ _ _ _ _ _ _ H1 V). simpl.
      repeat split; auto; repeat constructor; apply Shape.
  - exists [stage1_request cfg rt args].
    rewrite (stage1_throws _ _ _ _ _ _ _ H1). simpl.
    repeat split; auto; repeat constructor; apply Shape.
Qed.

(** When the network rejects the first request the run throws the
    [TypeError] of [fetch] after that single request; stage 2 is not
    tried. *)
Theorem rejected_first_request_aborts args w :
  net env (log w) (stage1_request cfg rt args) = Rejected ->
  discoverConflicts cfg rt env args w
  = (Throw TypeError,
     mkWorld (log w ++ [stage1_request cfg rt args]) (clock_reads w)).
Proof.
  intros N. apply stage1_throws.
  unfold stage1_call, openaiJSON, bind, fetch.
  unfold stage1_request in N. now rewrite N.
Qed.

End Orchestrator.

(* ================================================================== *)
(** * Further properties of telemetry, the tools and start-up *)

Section Tools.

Variable cfg : Config.
Variable rt : Runtime.
Variable env : Env.

Lemma trackEvent_configured event properties w :
  POSTHOG_API_KEY cfg <> EmptyString -> POSTHOG_HOST cfg <> EmptyString ->
  trackEvent cfg rt env event properties w
  = (Return tt,
     mkWorld (log w ++ [posthog_request cfg rt event properties]) (clock_reads w)).
Proof.
  intros K H. apply String.eqb_neq in K, H.
  unfold trackEvent. rewrite K, H. simpl.
  unfold catch, bind, fetch.
  destruct (net env (log w) _); reflexivity.
Qed.

(** An event is sent exactly when both analytics settings are set: with
    either one empty [trackEvent] does nothing at all, otherwise it sends
    one POST to [POSTHOG_HOST/capture/] and returns, whatever the
    network answers. *)
Theorem trackEvent_sends_iff_configured event properties w :
  (POSTHOG_API_KEY cfg = EmptyString \/ POSTHOG_HOST cfg = EmptyString ->
   trackEvent cfg rt env event properties w = (Return tt, w))
  /\ (POSTHOG_API_KEY cfg <> EmptyString -> POSTHOG_HOST cfg <> EmptyString ->
      trackEvent cfg rt env event properties w
      = (Return tt,
         mkWorld (log w ++ [posthog_request cfg rt event properties])
           (clock_reads w))
      /\ url (posthog_request cfg rt event properties)
         = POSTHOG_HOST cfg ++ "/capture/"
      /\ method (posthog_request cfg rt event properties) = "POST").
Proof.
  split.
  - intros [K | K]; unfold trackEvent; rewrite K; simpl;
      [| rewrite orb_true_r]; reflexivity.
  - intros K H. split; [| split; reflexivity].
    now apply trackEvent_configured.
Qed.

(** The event is filed under [properties.distinct_id] when that is
    truthy, else under [properties.widget_session_id] when that is
    truthy, else under [unknown]. *)
Theorem distinct_id_fallback event properties :
  let sent d :=
    JSON_stringify rt
      (JObj [("api_key", JStr (POSTHOG_API_KEY cfg));
             ("distinct_id", d);
             ("event", JStr event);
             ("properties", JObj properties)]) in
  (forall d,
      lookup "distinct_id" properties = Some d ->
      truthy (Some d) = true ->
      body (posthog_request cfg rt event properties) = sent d)
  /\ (forall s,
        truthy (lookup "distinct_id" properties) = false ->
        lookup "widget_session_id" properties = Some s ->
        truthy (Some s) = true ->
        body (posthog_request cfg rt event properties) = sent s)
  /\ (truthy (lookup "distinct_id" properties) = false ->
      truthy (lookup "widget_session_id" properties) = false ->
      body (posthog_request cfg rt event properties) = sent (JStr "unknown")).
Proof.
  intros sent. unfold posthog_request, or_else. repeat split.
  - intros d L T. rewrite L, T. cbv iota. rewrite T. reflexivity.
  - intros s F L T. rewrite F. cbv iota. rewrite L, T. reflexivity.
  - intros F F'. rewrite F. cbv iota. rewrite F'. reflexivity.
Qed.

(** A discovery that throws is reported as such and leaves no trace in
    analytics: the tool throws the same exception in the very world the
    failed run left, after a single reading of the clock. *)
Theorem failed_run_emits_no_event args w e w1 :
  discoverConflicts cfg rt env args (mkWorld (log w) (S (clock_reads w)))
  = (Throw e, w1) ->
  discover_conflicting_claims cfg rt env args w = (Throw e, w1).
Proof.
  intros D. unfold discover_conflicting_claims, bind, Date_now.
  now rewrite D.
Qed.

(** After a discovery that returns, the tool reads the clock once more
    and, with analytics configured, sends one [conflict_lens_run] event
    carrying the summary's conflict count and the difference of the two
    clock readings; it then answers with the result as structured
    content. *)
Theorem successful_run_emits_one_event args w result w1 :
  POSTHOG_API_KEY cfg <> EmptyString -> POSTHOG_HOST cfg <> EmptyString ->
  discoverConflicts cfg rt env args (mkWorld (log w) (S (clock_reads w)))
  = (Return result, w1) ->
  let elapsedMs := clock env (clock_reads w1) - clock env (clock_reads w) in
  discover_conflicting_claims cfg rt env args w
  = (Return (report_ready result),
     mkWorld
       (log w1
        ++ [posthog_request cfg rt "conflict_lens_run"
              (run_properties args result elapsedMs)])
       (S (clock_reads w1)))
  /\ lookup "conflict_count" (run_properties args result elapsedMs)
     = Some (JNum (inject_Z (Summary.conflict_count (Discovery.summary result))))
  /\ lookup "elapsed_ms" (run_properties args result elapsedMs)
     = Some (JNum (inject_Z elapsedMs)).
Proof.
  intros K H D elapsedMs.
  split; [| split; reflexivity].
  unfold discover_conflicting_claims, bind, Date_now. rewrite D. simpl.
  pose proof (trackEvent_configured "conflict_lens_run"
                (run_properties args result elapsedMs)
                (mkWorld (log w1) (S (clock_reads w1))) K H) as T.
  unfold elapsedMs in T. simpl in T.
  now rewrite T.
Qed.

(** For accepted arguments the run event is filed under the topic of the
    request. *)
Theorem run_event_is_filed_under_topic raw args result elapsedMs :
  DiscoverInputSchema (Some raw) = Some args ->
  body (posthog_request cfg rt "conflict_lens_run"
          (run_properties args result elapsedMs))
  = JSON_stringify rt
      (JObj [("api_key", JStr (POSTHOG_API_KEY cfg));
             ("distinct_id", JStr (DiscoverInput.topic args));
             ("event", JStr "conflict_lens_run");
             ("properties", JObj (run_properties args result elapsedMs))]).
Proof.
  intros Hargs.
  apply object_inv in Hargs as (o & _ & Hargs). fields Hargs. simpl.
  apply check_inv in E as [_ L]. apply Nat.leb_le in L.
  unfold posthog_request, or_else. simpl.
  destruct s as [| c s]; [simpl in L; lia |]. reflexivity.
Qed.

(** The attribution tool always acknowledges: it answers its fixed text
    whether analytics is configured or not and whatever the network
    does, having sent at most one request. *)
Theorem track_attribution_always_acknowledges found_via w :
  fst (track_attribution cfg rt env found_via w)
  = Return (mkToolResult [[("type", "text"); ("text", "Thanks. Saved.")]] None [])
  /\ exists sent,
       snd (track_attribution cfg rt env found_via w)
       = mkWorld (log w ++ sent) (clock_reads w)
       /\ (length sent <= 1)%nat.
Proof.
  unfold track_attribution, bind.
  match goal with
  | |- context [trackEvent cfg rt env ?ev ?ps w] =>
      pose proof (trackEvent_returns cfg rt env ev ps w) as T;
      pose proof (trackEvent_world cfg rt env ev ps w) as W;
      destruct (trackEvent cfg rt env ev ps w) as [[u | e] w1]
  end; simpl in T, W; [| discriminate].
  simpl. split; [reflexivity |].
  destruct W as [-> | ->].
  - exists []. rewrite app_nil_r. destruct w. simpl. auto.
  - eexists. split; [reflexivity |]. simpl. lia.
Qed.

End Tools.

(** Start-up succeeds exactly when [OPENAI_API_KEY] is set and not
    empty, and throws [Missing OPENAI_API_KEY] otherwise; on success the
    configuration carries that key, and its model is [OPENAI_MODEL] when
    that is set and not empty and [gpt-5] otherwise, so never empty. *)
Theorem startup_requires_credential (environ : string -> option string) :
  ((exists c, startup environ = Return c)
   <-> (exists key, environ "OPENAI_API_KEY" = Some key /\ key <> EmptyString))
  /\ (forall key,
        environ "OPENAI_API_KEY" = Some key ->
        key <> EmptyString ->
        exists c,
          startup environ = Return c
          /\ OPENAI_API_KEY c = key
          /\ MODEL c <> EmptyString
          /\ (forall m,
                environ "OPENAI_MODEL" = Some m -> m <> EmptyString -> MODEL c = m)
          /\ (environ "OPENAI_MODEL" = None
              \/ environ "OPENAI_MODEL" = Some EmptyString ->
              MODEL c = "gpt-5"))
  /\ (environ "OPENAI_API_KEY" = None \/ environ "OPENAI_API_KEY" = Some EmptyString ->
      startup environ = Throw (Error "Missing OPENAI_API_KEY")).
Proof.
  assert (Success : forall key,
             environ "OPENAI_API_KEY" = Some key ->
             key <> EmptyString ->
             startup environ
             = Return (mkConfig key
                         (env_or environ "POSTHOG_API_KEY" EmptyString)
                         (env_or environ "POSTHOG_HOST" EmptyString)
                         (env_or environ "OPENAI_MODEL" "gpt-5"))).
  { intros key E N. unfold startup. rewrite E.
    apply String.eqb_neq in N. now rewrite N. }
  split; [| split].
  - split.
    + intros [c H]. unfold startup in H.
      destruct (environ "OPENAI_API_KEY") as [key |]; [| discriminate H].
      destruct (String.eqb key EmptyString) eqn:K; [discriminate H |].
      apply String.eqb_neq in K. exists key. split; [reflexivity | exact K].
    + intros (key & E & N). eexists. exact (Success key E N).
  - intros key E N. eexists. split; [exact (Success key E N) |]. simpl.
    split; [reflexivity |]. unfold env_or. split; [| split].
    + destruct (environ "OPENAI_MODEL") as [m |]; [| discriminate].
      destruct (String.eqb m EmptyString) eqn:M; [discriminate |].
      now apply String.eqb_neq in M.
    + intros m M Nm. rewrite M. apply String.eqb_neq in Nm. now rewrite Nm.
    + intros [M | M]; now rewrite M.
  - unfold startup. intros [-> | ->]; reflexivity.
Qed.

(* ================================================================== *)
(** ** The further properties on concrete runs *)

Module MoreRuns.
Import Scenario.

Lemma validated_claim_revalidates_witness :
  exists c,
    ClaimSchema (Some (claim "c1")) = Some c
    /\ ClaimSchema (Some (json_of_Claim c)) = Some c.
Proof.
  eexists. split; [reflexivity |].
  apply (validated_claim_revalidates (Some (claim "c1"))). reflexivity.
Defined.

Lemma claim_set_parses_entrywise_witness :
  lookup "claims" broken_claims
  = Some (JArr [claim "c1"; JNull; claim "c2"; claim "c3"])
  /\ z.parse ClaimSetSchema (JObj broken_claims) = Throw ZodError.
Proof.
  split; [reflexivity |].
  destruct (claim_set_parses_entrywise broken_claims
              [claim "c1"; JNull; claim "c2"; claim "c3"] eq_refl)
    as [_ Refused].
  apply (Refused JNull); [simpl; auto | reflexivity].
Defined.

Lemma accepted_arguments_witness :
  DiscoverInputSchema (Some raw_args) = Some args
  /\ get "topic" raw_args = Some (JStr "coffee")
  /\ (2 <= utf16_length "coffee")%nat
  /\ 5 <= 5 <= 40
  /\ (get "domain" raw_args = None -> DiscoverInput.domain args = None)
  /\ (get "depth" raw_args = None -> DiscoverInput.depth args = academic)
  /\ (get "max_claims" raw_args = None -> DiscoverInput.max_claims args = 18)
  /\ (get "strict_no_sources" raw_args = None ->
      DiscoverInput.strict_no_sources args = true).
Proof.
  split; [reflexivity |].
  apply (accepted_arguments raw_args args). reflexivity.
Defined.

Lemma accepted_attribution_witness :
  AttributionInputSchema (Some (JObj [("found_via", JStr "friend")]))
  = Some "friend".
Proof.
  apply (accepted_attribution (JObj [("found_via", JStr "friend")]) "friend").
  split; [reflexivity | simpl; tauto].
Defined.

Lemma openaiJSON_returns_parsed_output_witness :
  openaiJSON config runtime (scripted [success sound_report])
    "instructions" "input" w0
  = (Return sound_report,
     mkWorld [openai_request config runtime "instructions" "input"] 0).
Proof.
  apply (openaiJSON_returns_parsed_output config runtime
           (scripted [success sound_report]) "instructions" "input" w0
           (mkResponse true 200 (Some (render (envelope sound_report))))
           (render (envelope sound_report)) (envelope sound_report)
           (render sound_report) sound_report);
    vm_compute; reflexivity.
Defined.

Lemma openaiJSON_without_output_text_witness :
  truthy (get "output_text" nine_claims) = false
  /\ fst (openaiJSON config runtime (scripted [raw_success (render nine_claims)])
            "instructions" "input" w0)
     = Throw (SyntaxError "Unexpected end of JSON input")
  /\ get "output_text" odd_reply = Some (JObj [("toString", JNum 1)])
  /\ fst (openaiJSON config runtime_odd (scripted [raw_success (render odd_reply)])
            "instructions" "input" w0)
     = Throw TypeError.
Proof.
  split; [reflexivity |].
  assert (Parsed : JSON_parse runtime (render nine_claims) = inl nine_claims)
    by (vm_compute; reflexivity).
  assert (Odd : JSON_parse runtime_odd (render odd_reply) = inl odd_reply)
    by (vm_compute; reflexivity).
  destruct (openaiJSON_without_output_text config runtime
              (scripted [raw_success (render nine_claims)])
              "instructions" "input" w0
              (mkResponse true 200 (Some (render nine_claims)))
              (render nine_claims) nine_claims
              eq_refl eq_refl eq_refl Parsed)
    as [Absent _].
  destruct (openaiJSON_without_output_text config runtime_odd
              (scripted [raw_success (render odd_reply)])
              "instructions" "input" w0
              (mkResponse true 200 (Some (render odd_reply)))
              (render odd_reply) odd_reply
              eq_refl eq_refl eq_refl Odd)
    as (_ & _ & Owning).
  split; [rewrite Absent by reflexivity; reflexivity |].
  split; [reflexivity |].
  exact (Owning [("toString", JNum 1)] (JNum 1) eq_refl eq_refl).
Defined.

Lemma upstream_error_identifies_reply_witness :
  fst (openaiJSON config runtime (scripted [failure 500 "boom"])
         "instructions" "input" w0)
  = fst (openaiJSON config runtime (scripted [success nine_claims; failure 500 "boom"])
           "instructions" "input"
           (mkWorld [openai_request config runtime "first" "call"] 0))
  /\ 500 = 500 /\ "boom" = "boom".
Proof.
  split; [vm_compute; reflexivity |].
  apply (upstream_error_identifies_reply config runtime
           (scripted [failure 500 "boom"])
           (scripted [success nine_claims; failure 500 "boom"])
           "instructions" "input" w0
           (mkWorld [openai_request config runtime "first" "call"] 0)
           (mkResponse false 500 (Some "boom"))
           (mkResponse false 500 (Some "boom")) "boom" "boom");
    vm_compute; reflexivity.
Defined.

Lemma returned_scores_witness :
  exists result w2,
    discoverConflicts config runtime net_sound args w0 = (Return result, w2)
    /\ Forall (fun c => (0 <= Claim.confidence c)%Q /\ (Claim.confidence c <= 1)%Q)
         (Discovery.claims result)
    /\ Forall (fun k => (0 <= Conflict.severity k)%Q /\ (Conflict.severity k <= 1)%Q)
         (Discovery.conflicts result).
Proof.
  eexists. eexists. split; [vm_compute; reflexivity |].
  eapply (returned_scores_in_unit_interval config runtime net_sound args w0).
  vm_compute. reflexivity.
Defined.

Lemma returned_claims_prefix_witness :
  exists result w2,
    discoverConflicts config runtime net_sound args w0 = (Return result, w2)
    /\ exists raw1 w1 cs rest,
         stage1_call config runtime net_sound args w0 = (Return raw1, w1)
         /\ z.parse ClaimSetSchema raw1 = Return cs
         /\ ClaimSet.claims cs = (Discovery.claims result ++ rest)%list.
Proof.
  eexists. eexists. split; [vm_compute; reflexivity |].
  eapply (returned_claims_are_a_prefix config runtime net_sound args w0).
  vm_compute. reflexivity.
Defined.

Lemma returned_claims_count_witness :
  exists result w2,
    DiscoverInputSchema (Some raw_args) = Some args
    /\ discoverConflicts config runtime net_sound args w0 = (Return result, w2)
    /\ exists raw1 w1 cs,
         stage1_call config runtime net_sound args w0 = (Return raw1, w1)
         /\ z.parse ClaimSetSchema raw1 = Return cs
         /\ length (Discovery.claims result)
            = Nat.min (Z.to_nat (DiscoverInput.max_claims args))
                (length (ClaimSet.claims cs))
         /\ (3 <= length (Discovery.claims result))%nat
         /\ (Z.of_nat (length (ClaimSet.claims cs)) <= DiscoverInput.max_claims args ->
             Discovery.claims result = ClaimSet.claims cs).
Proof.
  eexists. eexists. split; [reflexivity |].
  split; [vm_compute; reflexivity |].
  eapply (returned_claims_count config runtime net_sound raw_args args w0).
  - reflexivity.
  - vm_compute. reflexivity.
Defined.

Lemma stage2_payload_witness :
  exists cs,
    DiscoverInputSchema (Some raw_args) = Some args
    /\ z.parse ClaimSetSchema nine_claims = Return cs
    /\ z.parse ClaimSetSchema
         (stage2_payload (ClaimSet.topic cs)
            (slice0 (ClaimSet.claims cs) (DiscoverInput.max_claims args)))
       = Return (ClaimSet.mk (ClaimSet.topic cs)
                   (slice0 (ClaimSet.claims cs) (DiscoverInput.max_claims args))).
Proof.
  eexists. split; [reflexivity |]. split; [reflexivity |].
  apply (stage2_payload_is_a_claim_set raw_args args nine_claims); reflexivity.
Defined.

Lemma rejected_first_request_witness :
  discoverConflicts config runtime (scripted []) args w0
  = (Throw TypeError, mkWorld [stage1_request config runtime args] 0).
Proof.
  apply (rejected_first_request_aborts config runtime (scripted []) args w0).
  reflexivity.
Defined.

Lemma trackEvent_configured_witness :
  trackEvent config_no_analytics runtime (scripted []) "conflict_lens_found_via"
    [("found_via", JStr "link")] w0
  = (Return tt, w0)
  /\ trackEvent config runtime (scripted []) "conflict_lens_found_via"
       [("found_via", JStr "link")] w0
     = (Return tt,
        mkWorld [posthog_request config runtime "conflict_lens_found_via"
                   [("found_via", JStr "link")]] 0).
Proof.
  split.
  - apply (trackEvent_sends_iff_configured config_no_analytics runtime (scripted [])).
    left. reflexivity.
  - apply (trackEvent_sends_iff_configured config runtime (scripted []));
      discriminate.
Defined.

Lemma distinct_id_fallback_witness :
  body (posthog_request config runtime "conflict_lens_found_via"
          [("found_via", JStr "link")])
  = JSON_stringify runtime
      (JObj [("api_key", JStr "phc-test");
             ("distinct_id", JStr "unknown");
             ("event", JStr "conflict_lens_found_via");
             ("properties", JObj [("found_via", JStr "link")])]).
Proof.
  apply (distinct_id_fallback config runtime "conflict_lens_found_via"
           [("found_via", JStr "link")]); reflexivity.
Defined.

Lemma failed_run_emits_no_event_witness :
  exists w1,
    discoverConflicts config runtime net_stage2_down args (mkWorld [] 1)
    = (Throw (Error "OpenAI error 500: boom"), w1)
    /\ discover_conflicting_claims config runtime net_stage2_down args w0
       = (Throw (Error "OpenAI error 500: boom"), w1)
    /\ map url (log w1) = [openai_url; openai_url].
Proof.
  eexists. split; [vm_compute; reflexivity |]. split.
  - apply (failed_run_emits_no_event config runtime net_stage2_down args w0).
    vm_compute. reflexivity.
  - reflexivity.
Defined.

Lemma successful_run_emits_one_event_witness :
  exists result w1,
    discoverConflicts config runtime net_sound args (mkWorld [] 1)
    = (Return result, w1)
    /\ discover_conflicting_claims config runtime net_sound args w0
       = (Return (report_ready result),
          mkWorld
            (log w1
             ++ [posthog_request config runtime "conflict_lens_run"
                   (run_properties args result 250)])
            2).
Proof.
  eexists. eexists. split; [vm_compute; reflexivity |].
  apply (successful_run_emits_one_event config runtime net_sound args w0);
    try discriminate.
  vm_compute. reflexivity.
Defined.

Lemma run_event_topic_witness :
  DiscoverInputSchema (Some raw_args) = Some args
  /\ forall result,
       body (posthog_request config runtime "conflict_lens_run"
               (run_properties args result 250))
       = JSON_stringify runtime
           (JObj [("api_key", JStr "phc-test");
                  ("distinct_id", JStr "coffee");
                  ("event", JStr "conflict_lens_run");
                  ("properties", JObj (run_properties args result 250))]).
Proof.
  split; [reflexivity |]. intros result.
  apply (run_event_is_filed_under_topic config runtime raw_args args result 250).
  reflexivity.
Defined.

Lemma startup_witness :
  (exists c,
      startup environ = Return c
      /\ OPENAI_API_KEY c = "sk-test"
      /\ MODEL c = "gpt-5")
  /\ startup (fun _ => None) = Throw (Error "Missing OPENAI_API_KEY").
Proof.
  split.
  - destruct (startup_requires_credential environ) as (_ & Success & _).
    destruct (Success "sk-test" eq_refl) as (c & S & K & _ & _ & M);
      [discriminate |].
    exists c. split; [exact S |]. split; [exact K |].
    apply M. now left.
  - apply (startup_requires_credential (fun _ => None)). now left.
Defined.

Lemma unknown_claim_fields_witness :
  ~ In "source_url" ClaimSchema_keys
  /\ ClaimSchema
       (Some (add_field "source_url" (JStr "https://example.org") (claim "c1")))
     = Some (Claim.mk "c1" "assertion of c1" "dose" affirm None [] None None 1 None).
Proof.
  assert (N : ~ In "source_url" ClaimSchema_keys).
  { simpl. intros H.
    repeat (destruct H as [H | H]; [discriminate H |]). exact H. }
  split; [exact N |].
  destruct (unknown_claim_fields_are_ignored "source_url"
              (JStr "https://example.org") N)
    as [Ignored _].
  rewrite Ignored. reflexivity.
Defined.

End MoreRuns.
